(** * golden-pages-scraper: a shallow embedding of [golden_pages_scraper.py]

    The script crawls a paginated business directory, collects the links of
    the listings, visits every detail page for its website and email, keeps
    the listings that expose a website and writes them to a JSON file.

    Layout of this development:
    - [PyStr]: the [str] methods the script calls ([split], [strip],
      [replace]);
    - [Soup]: the part of the BeautifulSoup tree interface the script calls
      ([find], [find_all], [find_next_sibling], [.text], [tag[attr]]);
    - the four functions of the script and the three phases of [main], over
      an explicit world (requests issued, time slept, files);
    - the properties of the script. *)

From Stdlib Require Import Ascii String.
From stdpp Require Import gmap strings list pretty.

#[local] Set Warnings "-register-all,-clear-no-such-hyp".
Local Open Scope string_scope.
Local Open Scope list_scope.
Local Open Scope nat_scope.

(** ** Exceptions

    Python exceptions that the calls of the script can raise and that the
    script does not catch, and the result of a call that may raise. *)

Inductive exn : Type :=
| IndexError                 (* list index out of range *)
| KeyError (key : string)    (* tag[key] on a tag without that attribute *)
| TypeError.                 (* None[key] *)

Inductive result (A : Type) : Type :=
| Ok (a : A)
| Raise (e : exn).
Arguments Ok {A} a.
Arguments Raise {A} e.

Global Instance result_ret : MRet result := λ A a, Ok a.
Global Instance result_bind : MBind result := λ A B k r,
  match r with
  | Ok a => k a
  | Raise e => Raise e
  end.

(** ** Python strings

    A [str] is modelled as a [string] whose characters are the code points
    below 256. *)

Module PyStr.

(** [str.isspace] on one character, as [str.strip()] uses it: TAB..CR,
    FS..US, SPACE, NEL (0x85) and NBSP (0xA0). *)
Definition isspace (c : ascii) : bool :=
  let n := nat_of_ascii c in
  (((9 <=? n) && (n <=? 13)) || ((28 <=? n) && (n <=? 32))
   || (n =? 133) || (n =? 160))%nat.

Fixpoint lstrip (s : string) : string :=
  match s with
  | String c s' => if isspace c then lstrip s' else s
  | EmptyString => EmptyString
  end.

(** [rstrip] keeps a character when it is not a space or when something
    is left after it. *)
Fixpoint rstrip (s : string) : string :=
  match s with
  | String c s' =>
      match rstrip s' with
      | EmptyString => if isspace c then EmptyString else String c EmptyString
      | r => String c r
      end
  | EmptyString => EmptyString
  end.

(** [s.strip()] *)
Definition strip (s : string) : string := rstrip (lstrip s).

Fixpoint drop (n : nat) (s : string) : string :=
  match n, s with
  | S k, String _ s' => drop k s'
  | _, _ => s
  end.

(** [s.partition(sep)] for a non-empty [sep]: the text before and after the
    first occurrence of [sep], when there is one. *)
Fixpoint partition (sep s : string) : option (string * string) :=
  match s with
  | EmptyString => None
  | String c s' =>
      if String.prefix sep s then Some (EmptyString, drop (String.length sep) s)
      else match partition sep s' with
           | Some (a, b) => Some (String c a, b)
           | None => None
           end
  end.

(** [s.split(sep, 1)] for a non-empty [sep]. *)
Definition split1 (sep s : string) : list string :=
  match partition sep s with
  | Some (a, b) => [a; b]
  | None => [s]
  end.

(** [s.replace(old, new)] for a non-empty [old]: the occurrences of [old]
    are found from left to right and do not overlap.  [skip] counts the
    characters of an occurrence just replaced that are still to be
    passed over. *)
Fixpoint replace_from (old new : string) (skip : nat) (s : string) : string :=
  match s with
  | EmptyString => EmptyString
  | String c s' =>
      match skip with
      | S k => replace_from old new k s'
      | O =>
          if String.prefix old s
          then new +:+ replace_from old new (String.length old - 1) s'
          else String c (replace_from old new 0 s')
      end
  end.

Definition replace (old new s : string) : string := replace_from old new 0 s.

(** [old in s] *)
Fixpoint contains (old s : string) : bool :=
  match s with
  | EmptyString => String.prefix old EmptyString
  | String _ s' => String.prefix old s || contains old s'
  end.

End PyStr.

(** ** The BeautifulSoup tree

    The parsed document, as the script reads it.  A tag holds its name, the
    tokens of its [class] attribute (bs4 splits this attribute on
    whitespace), its other attributes and its contents. *)

Module Soup.

Inductive node : Type :=
| Tag (name : string) (classes : list string)
      (attrs : list (string * string)) (contents : list node)
| NavigableString (s : string).

(** A tag as the script holds it: bs4 tags know their siblings, so the
    handle carries the nodes that follow the tag under its parent. *)
Record element : Type := Element {
  name : string;
  classes : list string;
  attrs : list (string * string);
  contents : list node;
  next_siblings : list node;
}.

(** The tags below a list of sibling nodes, in document order. *)
Fixpoint descendants (n : node) (following : list node) : list element :=
  match n with
  | Tag nm cs ats ch =>
      Element nm cs ats ch following ::
      (fix below (l : list node) : list element :=
         match l with
         | [] => []
         | x :: r => descendants x r ++ below r
         end) ch
  | NavigableString _ => []
  end.

Fixpoint tags_below (l : list node) : list element :=
  match l with
  | [] => []
  | x :: r => descendants x r ++ tags_below r
  end.

(** [class_=c]: some token of the class attribute is [c], or the tokens
    joined by single spaces are [c]. *)
Definition has_class (c : string) (e : element) : bool :=
  existsb (String.eqb c) (classes e) || String.eqb c (String.concat " " (classes e)).

Definition matches (nm : string) (class_ : option string) (e : element) : bool :=
  String.eqb nm (name e) && from_option (λ c, has_class c e) true class_.

(** [e.find_all(nm, class_=c)] and [e.find(nm, class_=c)] *)
Definition find_all (nm : string) (class_ : option string) (e : element) : list element :=
  List.filter (matches nm class_) (tags_below (contents e)).

Definition find (nm : string) (class_ : option string) (e : element) : option element :=
  head (find_all nm class_ e).

(** [e.find_next_sibling()]: the next sibling that is a tag. *)
Fixpoint first_tag (l : list node) : option element :=
  match l with
  | [] => None
  | Tag nm cs ats ch :: r => Some (Element nm cs ats ch r)
  | NavigableString _ :: r => first_tag r
  end.

Definition find_next_sibling (e : element) : option element :=
  first_tag (next_siblings e).

(** [e[key]], for an attribute other than [class] *)
Fixpoint lookup_attr (key : string) (ats : list (string * string)) : option string :=
  match ats with
  | [] => None
  | (k, v) :: r => if String.eqb key k then Some v else lookup_attr key r
  end.

Definition getitem (e : element) (key : string) : result string :=
  match lookup_attr key (attrs e) with
  | Some v => Ok v
  | None => Raise (KeyError key)
  end.

(** [e.text]: the strings below the tag, concatenated. *)
Fixpoint node_text (n : node) : string :=
  match n with
  | Tag _ _ _ ch =>
      (fix texts (l : list node) : string :=
         match l with
         | [] => EmptyString
         | x :: r => node_text x +:+ texts r
         end) ch
  | NavigableString s => s
  end.

Definition text (e : element) : string :=
  String.concat EmptyString (node_text <$> contents e).

(** The [BeautifulSoup] object of a document with the given top-level
    nodes. *)
Definition document (top : list node) : element :=
  Element "[document]" [] [] top [].

End Soup.

(** ** Data of the script *)

(** A [dict] with [str] keys and values, in insertion order. *)
Definition dict : Type := list (string * string).

(** [{'name': ..., 'link': ...}], an entry of a search results page *)
Record listing : Type := Listing {
  listing_name : string;
  listing_link : string;
}.

(** [{'link': ..., 'email': ..., 'website': ...}], what a business page gives *)
Record details : Type := Details {
  details_link : string;
  details_email : string;
  details_website : string;
}.

(** [{'name': business['name'], **details}], an entry of the output *)
Record final_data : Type := FinalData {
  name : string;
  link : string;
  email : string;
  website : string;
}.

Global Instance listing_eq_dec : EqDecision listing.
Proof. solve_decision. Defined.

Global Instance listing_countable : Countable listing :=
  inj_countable' (λ l, (listing_name l, listing_link l))
                 (λ p, Listing p.1 p.2) (λ l, match l with Listing _ _ => eq_refl end).

Definition not_found : string := "Not found".

(** ** The world of a run

    What the script does to its surroundings: the GET requests it issues,
    the time it sleeps and the files it writes.  [print] is left out. *)

Inductive file_mode : Type :=
| mode_w    (* 'w': truncate or create *)
| mode_a.   (* 'a': append or create *)

Record world : Type := World {
  requests : list string;       (* URLs requested so far, oldest first *)
  slept : nat;                  (* seconds spent in time.sleep *)
  files : gmap string string;   (* contents of the files *)
  locked : gset string;         (* paths that open() refuses with an IOError *)
}.

(** A computation changes the world and returns or raises. *)
Definition M (A : Type) : Type := world → world * result A.

Global Instance M_ret : MRet M := λ A a w, (w, Ok a).
Global Instance M_bind : MBind M := λ A B k m w,
  match m w with
  | (w', Ok a) => k a w'
  | (w', Raise e) => (w', Raise e)
  end.

Definition lift {A} (r : result A) : M A := λ w, (w, r).

(** [time.sleep(secs)] *)
Definition sleep (secs : nat) : M unit := λ w,
  (World (requests w) (slept w + secs) (files w) (locked w), Ok tt).

(** [with open(filename, mode) as f: f.write(text)]; [None] is an IOError
    raised by [open]. *)
Definition write_file (filename : string) (mode : file_mode) (text : string)
    (w : world) : option world :=
  if decide (filename ∈ locked w) then None
  else
    let old := match mode with
               | mode_w => EmptyString
               | mode_a => default EmptyString (files w !! filename)
               end in
    Some (World (requests w) (slept w) (<[filename := old +:+ text]> (files w)) (locked w)).

(** ** [extract_links_from_search] *)

(** The value of the variable [name]: the list that [split] returns, or the
    str ['Name not found']. *)
Inductive name_value : Type :=
| NameParts (parts : list string)
| NameStr (s : string).

(** [name[1]] *)
Definition name_getitem_1 (v : name_value) : result string :=
  match v with
  | NameParts parts =>
      match parts !! 1 with
      | Some x => Ok x
      | None => Raise IndexError
      end
  | NameStr (String _ (String c _)) => Ok (String c EmptyString)
  | NameStr _ => Raise IndexError
  end.

(** [link_element.find('a') if link_element and link_element.find('a')] *)
Definition title_anchor (link_element : option Soup.element) : option Soup.element :=
  link_element ≫= Soup.find "a" None.

(** The body of the loop over [listings], lines 59 to 68. *)
Definition extract_listing (businesses : list listing) (listing_ : Soup.element)
    : result (list listing) :=
  let link_element := Soup.find "h3" (Some "listing_title") listing_ in
  link ← match title_anchor link_element with
         | Some a => v ← Soup.getitem a "href"; Ok (Some v)
         | None => Ok None
         end;
  let name := match title_anchor link_element with
              | Some a => NameParts (PyStr.split1 "." (Soup.text a))
              | None => NameStr "Name not found"
              end in
  match link with
  | Some (String _ _ as link) =>
      n ← name_getitem_1 name;
      Ok (businesses ++ [Listing (PyStr.strip n) link])
  | _ => Ok businesses
  end.

Fixpoint extract_listings (businesses : list listing) (listings : list Soup.element)
    : result (list listing) :=
  match listings with
  | [] => Ok businesses
  | listing_ :: rest =>
      businesses' ← extract_listing businesses listing_;
      extract_listings businesses' rest
  end.

Definition extract_links_from_search (soup : Soup.element) : result (list listing) :=
  let listings := Soup.find_all "div" (Some "listing_container") soup in
  match listings with
  | [] => Ok []
  | _ => extract_listings [] listings
  end.

(** ** [scrape_business_page]: the part after the fetch *)

(** Lines 101 to 115: the website anchor, by its class or as the sibling of
    the website icon.  The outer [None] is the early [return details] when
    there is neither; the inner [None] is a website icon with no tag after
    it. *)
Definition website_link_element (business_contact_info : Soup.element)
    : option (option Soup.element) :=
  match Soup.find "a" (Some "yext.homepage") business_contact_info with
  | Some a => Some (Some a)
  | None =>
      match Soup.find "span" (Some "icon_website") business_contact_info with
      | Some website_icon_element => Some (Soup.find_next_sibling website_icon_element)
      | None => None
      end
  end.

(** Lines 119 to 130: the email anchor, by its class or as the sibling of
    the email icon. *)
Definition email_link_element (business_contact_info : Soup.element)
    : option Soup.element :=
  match Soup.find "a" (Some "yext.email") business_contact_info with
  | Some a => Some a
  | None =>
      match Soup.find "span" (Some "icon_email") business_contact_info with
      | Some email_icon_element => Soup.find_next_sibling email_icon_element
      | None => None
      end
  end.

(** [x[key]] where [x] may be [None] *)
Definition getitem_opt (x : option Soup.element) (key : string) : result string :=
  match x with
  | Some e => Soup.getitem e key
  | None => Raise TypeError
  end.

(** Lines 97 to 140, from the parsed page on. *)
Definition scrape_soup (url : string) (soup : Soup.element) : result details :=
  let details := Details url not_found not_found in
  match Soup.find "div" (Some "details_contact_other col_item width_2_4") soup with
  | Some business_contact_info =>
      match website_link_element business_contact_info with
      | Some website_link_element =>
          match email_link_element business_contact_info with
          | Some email_link_element =>
              website ← getitem_opt website_link_element "href";
              let details := Details (details_link details) (details_email details) website in
              href ← Soup.getitem email_link_element "href";
              let email := PyStr.strip (PyStr.replace "mailto:" EmptyString href) in
              Ok (Details (details_link details) email (details_website details))
          | None => Ok details
          end
      | None => Ok details
      end
  | None => Ok details
  end.

(** ** The functions that touch the world *)

(** Constants of [main]. *)
Definition headers : dict :=
  [("User-Agent",
    "Mozilla/5.0 (Windows NT 10.0; Win64; x64) AppleWebKit/537.36 (KHTML, like Gecko) Chrome/91.0.4472.124 Safari/537.36")].
Definition MAX_PAGES : nat := 95.
Definition base_url_pattern : string :=
  "https://www.goldenpages.ie/q/business/advanced/what/plumbers/".
Definition json_file_name : string := "golden_pages_data.json".

(** [f"{base_url_pattern}{page_num}/" if page_num > 1 else base_url_pattern] *)
Definition current_url (page_num : nat) : string :=
  if 1 <? page_num then base_url_pattern +:+ pretty page_num +:+ "/"
  else base_url_pattern.

(** [link_data] entries added to the set, lines 205 and 206. *)
Definition add_links (all_business_links_set : gset listing)
    (links_on_page : list listing) : gset listing :=
  foldl (λ s link_data, s ∪ {[ link_data ]}) all_business_links_set links_on_page.

(** [csv.DictWriter(csvfile, fieldnames).writerows(data)]: the rows are
    written one by one; a row with a key outside [fieldnames] raises a
    ValueError, after the rows before it were written.  The result is the
    text written and whether the call returned. *)
Section Csv.
(** [csv.writer]'s rendering of one row, line terminator included. *)
Variable csv_row : list string → string.

Fixpoint dict_get (key : string) (d : dict) : option string :=
  match d with
  | [] => None
  | (k, v) :: r => if String.eqb key k then Some v else dict_get key r
  end.

Definition dict_to_list (fieldnames : list string) (rowdict : dict) : option (list string) :=
  if forallb (λ k, existsb (String.eqb k) fieldnames) rowdict.*1
  then Some ((λ k, default EmptyString (dict_get k rowdict)) <$> fieldnames)
  else None.

Fixpoint writerows (fieldnames : list string) (rowdicts : list dict) : string * bool :=
  match rowdicts with
  | [] => (EmptyString, true)
  | rowdict :: rest =>
      match dict_to_list fieldnames rowdict with
      | Some row =>
          let (text, ok) := writerows fieldnames rest in
          (csv_row row +:+ text, ok)
      | None => (EmptyString, false)
      end
  end.

(** [save_to_csv(data, filename, mode, header)].  Both [except] clauses
    only print, so the call always returns. *)
Definition save_to_csv (data : list dict) (filename : string)
    (mode : file_mode) (header : bool) : M unit := λ w,
  match data with
  | [] => (w, Ok tt)
  | first :: _ =>
      let fieldnames := first.*1 in
      let head := if header then csv_row fieldnames else EmptyString in
      match write_file filename mode (head +:+ (writerows fieldnames data).1) w with
      | Some w' => (w', Ok tt)
      | None => (w, Ok tt)
      end
  end.
End Csv.

Section Scraper.
(** The site: the answer to a GET request, given how many requests were
    issued before it, its URL and its headers.  [None] is a transport
    error or a 4xx or 5xx status. *)
Variable web : nat → string → dict → option Soup.element.

(** [json.dump(all_scraped_data, json_file, indent=4)], the text written *)
Variable json_dump : list final_data → string.

(** The order in which a [set] is iterated. *)
Variable set_iter : gset listing → list listing.

Definition get_html_content (url : string) (headers : dict) : M (option Soup.element) :=
  λ w, (World (requests w ++ [url]) (slept w) (files w) (locked w),
        Ok (web (length (requests w)) url headers)).

Definition scrape_business_page (url : string) (headers : dict) : M details :=
  soup ← get_html_content url headers;
  let details := Details url not_found not_found in
  match soup with
  | None => mret details
  | Some soup => lift (scrape_soup url soup)
  end.

(** Phase 1 of [main]: the loop over [range(1, MAX_PAGES + 1)], with the
    set as its accumulator.  Both [break]s return the set as it is. *)
Fixpoint main_phase1 (pages : list nat) (all_business_links_set : gset listing)
    : M (gset listing) :=
  match pages with
  | [] => mret all_business_links_set
  | page_num :: rest =>
      soup ← get_html_content (current_url page_num) headers;
      match soup with
      | Some soup =>
          links_on_page ← lift (extract_links_from_search soup);
          match links_on_page with
          | [] => mret all_business_links_set
          | _ =>
              sleep 2;;
              main_phase1 rest (add_links all_business_links_set links_on_page)
          end
      | None => mret all_business_links_set
      end
  end.

(** Phase 2 of [main]: the loop over [all_business_links], with
    [all_scraped_data] as its accumulator. *)
Fixpoint main_phase2 (all_business_links : list listing)
    (all_scraped_data : list final_data) : M (list final_data) :=
  match all_business_links with
  | [] => mret all_scraped_data
  | business :: rest =>
      let full_url := "https://www.goldenpages.ie" +:+ listing_link business in
      details ← scrape_business_page full_url headers;
      let all_scraped_data' :=
        if decide (details_website details ≠ not_found)
        then all_scraped_data ++
             [FinalData (listing_name business) (details_link details)
                        (details_email details) (details_website details)]
        else all_scraped_data in
      sleep 2;;
      main_phase2 rest all_scraped_data'
  end.

(** Phase 3 of [main]: an IOError of [open] is caught and printed. *)
Definition main_phase3 (all_scraped_data : list final_data) : M unit := λ w,
  match all_scraped_data with
  | [] => (w, Ok tt)
  | _ =>
      match write_file json_file_name mode_w (json_dump all_scraped_data) w with
      | Some w' => (w', Ok tt)
      | None => (w, Ok tt)
      end
  end.

(** [main], for a page ceiling [max_pages]. *)
Definition main_upto (max_pages : nat) : M unit :=
  all_business_links_set ← main_phase1 (seq 1 max_pages) ∅;
  let all_business_links := set_iter all_business_links_set in
  match all_business_links with
  | [] => mret tt
  | _ =>
      all_scraped_data ← main_phase2 all_business_links [];
      main_phase3 all_scraped_data
  end.

Definition main : M unit := main_upto MAX_PAGES.
End Scraper.

(** * Vocabulary of the properties *)

Definition contact_class : string := "details_contact_other col_item width_2_4".

(** A business page whose contact block holds the given nodes. *)
Definition contact_page (block : list Soup.node) : Soup.element :=
  Soup.document
    [Soup.Tag "html" [] []
       [Soup.Tag "body" [] []
          [Soup.Tag "div" ["details_contact_other"; "col_item"; "width_2_4"] [] block]]].

(** A site that answers every request with the same page. *)
Definition always (page : option Soup.element) : nat → string → dict → option Soup.element :=
  λ _ _ _, page.

Definition fresh : world := World [] 0 ∅ ∅.

(** [s.removeprefix(p)] *)
Definition removeprefix (p s : string) : string :=
  if String.prefix p s then PyStr.drop (String.length p) s else s.

(** The email as the specification words it: the href with a leading
    "mailto:" removed, trimmed. *)
Definition email_as_specified (href : string) : string :=
  PyStr.strip (removeprefix "mailto:" href).

Definition acme_site : string := "http://www.acme.ie".

Definition page_website_only : Soup.element :=
  contact_page [Soup.Tag "a" ["yext.homepage"] [("href", acme_site)] []].

Definition page_icon_last : Soup.element :=
  contact_page
    [Soup.Tag "a" ["yext.email"] [("href", "mailto:a@b.com")] [];
     Soup.NavigableString " ";
     Soup.Tag "span" ["icon_website"] [] []].

Definition page_sibling_without_href : Soup.element :=
  contact_page
    [Soup.Tag "span" ["icon_website"] [] [];
     Soup.Tag "a" [] [] [Soup.NavigableString "www.acme.ie"];
     Soup.Tag "a" ["yext.email"] [("href", "mailto:a@b.com")] []].

Definition page_two_mailto : Soup.element :=
  contact_page
    [Soup.Tag "a" ["yext.homepage"] [("href", acme_site)] [];
     Soup.Tag "a" ["yext.email"] [("href", "mailto:a@b.com?cc=mailto:c@d.com")] []].

Definition page_email_only : Soup.element :=
  contact_page [Soup.Tag "a" ["yext.email"] [("href", "mailto:a@b.com")] []].

Definition block_plain : list Soup.node :=
  [Soup.Tag "span" ["icon_website"] [] [];
   Soup.Tag "a" [] [("href", acme_site)] [];
   Soup.Tag "span" ["icon_email"] [] [];
   Soup.Tag "a" [] [("href", "mailto: info@acme.ie ")] []].

Definition page_plain : Soup.element := contact_page block_plain.

(** The container of [contact_page block], as [find] returns it. *)
Definition contact_info (block : list Soup.node) : Soup.element :=
  Soup.Element "div" ["details_contact_other"; "col_item"; "width_2_4"] [] block [].

Definition acme_url : string := "https://www.goldenpages.ie/biz/123".

Definition title_link (c : Soup.element) : option Soup.element :=
  title_anchor (Soup.find "h3" (Some "listing_title") c).

(** A listing-index page with one container per title link, each given by
    its attributes and its text. *)
Definition listing_page (links : list (list (string * string) * string)) : Soup.element :=
  Soup.document
    [Soup.Tag "html" [] []
       [Soup.Tag "body" [] []
          ((λ l, Soup.Tag "div" ["listing_container"] []
                   [Soup.Tag "h3" ["listing_title"] []
                      [Soup.Tag "a" [] l.1 [Soup.NavigableString l.2]]]) <$> links)]].

Definition acme_page : Soup.element :=
  listing_page [([("href", "/biz/123")], "Acme.Plumbing Co")].

(** A title link is resolvable when it has a non-empty href: these are the
    links that [if link:] lets through. *)
Definition resolvable (c a : Soup.element) : Prop :=
  title_link c = Some a ∧
  ∃ href, Soup.lookup_attr "href" (Soup.attrs a) = Some href ∧ href ≠ EmptyString.

Definition period_in_title (c : Soup.element) : Prop :=
  ∀ a, resolvable c a → PyStr.contains "." (Soup.text a) = true.

Definition page_no_period : Soup.element :=
  listing_page [([("href", "/biz/1")], "1.Bolt Plumbers"); ([("href", "/biz/2")], "Acme")].

(** The answer to the request for the [i]-th page of a loop that starts
    at page [first] in the world [w]. *)
Definition answer (web : nat → string → dict → option Soup.element)
    (w : world) (first i : nat) : option Soup.element :=
  web (length (requests w) + i) (current_url (first + i)) headers.

Definition yields_links (page : option Soup.element) : Prop :=
  ∃ soup l ls, page = Some soup ∧ extract_links_from_search soup = Ok (l :: ls).

Definition ends_pagination (page : option Soup.element) : Prop :=
  page = None ∨ ∃ soup, page = Some soup ∧ extract_links_from_search soup = Ok [].

(** The answer to the request for page [page_num] in a run of phase 1 that
    starts in the world [w]: page 1 is the first request. *)
Definition page_answer (web : nat → string → dict → option Soup.element)
    (w : world) (page_num : nat) : option Soup.element :=
  web (length (requests w) + (page_num - 1)) (current_url page_num) headers.

(** A site for the scenario: the second answer is a page without listing
    containers, every other answer is the Acme page. *)
Definition web_empty_second : nat → string → dict → option Soup.element :=
  λ n _ _, if n =? 1 then Some (Soup.document []) else Some acme_page.

(** The entries that phase 1 passes to [add], page after page, when the
    first request is the [n]-th of the run. *)
Fixpoint collected (web : nat → string → dict → option Soup.element)
    (n : nat) (pages : list nat) : list listing :=
  match pages with
  | [] => []
  | page_num :: rest =>
      match web n (current_url page_num) headers with
      | Some soup =>
          match extract_links_from_search soup with
          | Ok (l :: ls) => (l :: ls) ++ collected web (S n) rest
          | _ => []
          end
      | None => []
      end
  end.

Definition same_fields (r e : listing) : Prop :=
  listing_name e = listing_name r ∧ listing_link e = listing_link r.

Global Instance same_fields_dec r e : Decision (same_fields r e).
Proof. unfold same_fields. apply _. Defined.

Definition acme : listing := Listing "Acme" "/biz/1".
Definition bolt_2 : listing := Listing "Bolt" "/biz/2".
Definition bolt_3 : listing := Listing "Bolt" "/biz/3".

(** A site whose first two pages share an entry; the third page is empty. *)
Definition web_duplicates : nat → string → dict → option Soup.element :=
  λ n _ _,
    match n with
    | 0 => Some (listing_page [([("href", "/biz/1")], "1.Acme"); ([("href", "/biz/2")], "2.Bolt")])
    | 1 => Some (listing_page [([("href", "/biz/1")], "1. Acme"); ([("href", "/biz/3")], "3.Bolt")])
    | _ => Some (Soup.document [])
    end.

Definition has_website (r : final_data) : Prop := website r ≠ not_found.

Definition full_url (business : listing) : string :=
  "https://www.goldenpages.ie" +:+ listing_link business.


(** A site for phase 2: the page of /biz/1 has a website and an email, every
    other page has a website anchor and no email anchor. *)
Definition web_details : nat → string → dict → option Soup.element :=
  λ _ url _,
    if String.eqb url "https://www.goldenpages.ie/biz/1" then Some page_plain
    else Some page_website_only.

(** A call that returned. *)
Definition returns {A} (r : result A) : Prop := ∃ a, r = Ok a.

(** The href of the title link of a container, when [if link:] lets it
    through. *)
Definition title_href (c : Soup.element) : option string :=
  match title_link c with
  | Some a =>
      match Soup.lookup_attr "href" (Soup.attrs a) with
      | Some (String _ _ as href) => Some href
      | _ => None
      end
  | None => None
  end.

(** A container that the loop of the extractor gets through: its title
    link, if it has one, has an href, and a period in its text unless the
    href is empty. *)
Definition container_ok (c : Soup.element) : Prop :=
  ∀ a, title_link c = Some a →
    ∃ href, Soup.lookup_attr "href" (Soup.attrs a) = Some href ∧
            (href = EmptyString ∨ PyStr.contains "." (Soup.text a) = true).

Definition page_three_containers : Soup.element :=
  listing_page [([("href", "/biz/1")], "1. Acme ");
                ([("href", EmptyString)], "no period");
                ([("href", "/biz/3")], "3.Bolt")].

(** A site with one listing, whose page has the website icon as its last
    tag: the first answer is the search page, the second an empty search
    page, every later one the page of the listing. *)
Definition web_crash : nat → string → dict → option Soup.element :=
  λ n _ _,
    match n with
    | 0 => Some acme_page
    | 1 => Some (Soup.document [])
    | _ => Some page_icon_last
    end.

(** A site with one listing, whose page has a website and an email. *)
Definition web_one_listing : nat → string → dict → option Soup.element :=
  λ n _ _,
    match n with
    | 0 => Some acme_page
    | 1 => Some (Soup.document [])
    | _ => Some page_plain
    end.

(** A row that the [DictWriter] accepts: its keys are among the field
    names. *)
Definition row_ok (fieldnames : list string) (rowdict : dict) : Prop :=
  ∀ k, k ∈ rowdict.*1 → k ∈ fieldnames.

(** The values of a row in the order of the field names, with the empty
    string for a missing key. *)
Definition row_values (fieldnames : list string) (rowdict : dict) : list string :=
  (λ k, default EmptyString (dict_get k rowdict)) <$> fieldnames.

(** The text of the rows, one after the other. *)
Definition rows_text (csv_row : list string → string) (fieldnames : list string)
    (rowdicts : list dict) : string :=
  foldr (λ rowdict text, csv_row (row_values fieldnames rowdict) +:+ text)
        EmptyString rowdicts.

(** What a write finds in the file: nothing in mode 'w', the old contents
    in mode 'a'. *)
Definition old_text (mode : file_mode) (filename : string) (w : world) : string :=
  match mode with
  | mode_w => EmptyString
  | mode_a => default EmptyString (files w !! filename)
  end.

(** A rendering of rows for the examples: the fields, each followed by a
    semicolon, and a line feed. *)
Definition semicolons (row : list string) : string :=
  foldr (λ field text, field +:+ ";" +:+ text) (String "010" EmptyString) row.

Definition row_acme : dict := [("name", "Acme"); ("link", "/biz/1")].
Definition row_no_name : dict := [("link", "/biz/2")].
Definition row_with_phone : dict := [("name", "Bolt"); ("phone", "01 234"); ("link", "/biz/3")].

(** * Properties *)

(** Unfolds the plumbing of [M], to read a computation as a function of the
    world. *)
Ltac unfold_M :=
  unfold get_html_content, sleep, lift, mbind, M_bind, mret, M_ret.


(** ** Strings *)

Example strip_both_sides : PyStr.strip "  Plumbing Co
" = "Plumbing Co".
Proof. reflexivity. Qed.

Example split1_first_period :
  PyStr.split1 "." "Acme.Plumbing. Co" = ["Acme"; "Plumbing. Co"].
Proof. reflexivity. Qed.

Example replace_every_occurrence :
  PyStr.replace "mailto:" EmptyString "mailto:a@b.com?cc=mailto:c@d.com"
    = "a@b.com?cc=c@d.com".
Proof. reflexivity. Qed.

Example replace_without_overlap : PyStr.replace "aa" "b" "aaaaa" = "bba".
Proof. reflexivity. Qed.

Lemma replace_from_skip old new k s :
  PyStr.replace_from old new k s = PyStr.replace_from old new 0 (PyStr.drop k s).
Proof.
  revert k. induction s as [|c s IH]; intros [|k]; simpl; try reflexivity.
  apply IH.
Qed.

Lemma replace_absent old new s :
  PyStr.contains old s = false → PyStr.replace old new s = s.
Proof.
  unfold PyStr.replace. induction s as [|c s IH]; simpl; [reflexivity|].
  intros [Hp Hc]%orb_false_iff. rewrite Hp. f_equal. auto.
Qed.

Lemma partition_absent sep s :
  PyStr.contains sep s = false → PyStr.partition sep s = None.
Proof.
  induction s as [|c s IH]; simpl; [reflexivity|].
  intros [Hp Hc]%orb_false_iff. rewrite Hp, IH; auto.
Qed.

Lemma partition_present sep s :
  PyStr.contains sep s = true → sep ≠ EmptyString → is_Some (PyStr.partition sep s).
Proof.
  intros H Hsep. induction s as [|c s IH].
  - destruct sep; [congruence | discriminate].
  - cbn [PyStr.contains PyStr.partition] in *.
    destruct (String.prefix sep (String c s)) eqn:Hp; [eauto|].
    destruct IH as [[a b] ->]; eauto.
Qed.

(** ** The detail extractor *)

Section Detail.
Variable web : nat → string → dict → option Soup.element.

(** The call is the fetch followed by the extraction on the page. *)
Lemma scrape_business_page_unfold url hdrs w :
  scrape_business_page web url hdrs w =
  (World (requests w ++ [url]) (slept w) (files w) (locked w),
   match web (length (requests w)) url hdrs with
   | Some soup => scrape_soup url soup
   | None => Ok (Details url not_found not_found)
   end).
Proof.
  unfold scrape_business_page. unfold_M.
  destruct (web _ _ _); reflexivity.
Qed.

(** Without an email anchor nothing is written into [details]. *)
Lemma scrape_soup_no_email url soup info :
  Soup.find "div" (Some contact_class) soup = Some info →
  email_link_element info = None →
  scrape_soup url soup = Ok (Details url not_found not_found).
Proof.
  intros Hinfo Hemail. unfold scrape_soup. fold contact_class.
  rewrite Hinfo, Hemail. destruct (website_link_element info); reflexivity.
Qed.
End Detail.

Lemma replace_only_prefix old s :
  PyStr.contains old (removeprefix old s) = false →
  PyStr.replace old EmptyString s = removeprefix old s.
Proof.
  unfold removeprefix. destruct (String.prefix old s) eqn:Hp.
  - intros Hc. destruct s as [|c s].
    + destruct old; [reflexivity | discriminate].
    + unfold PyStr.replace. cbn [PyStr.replace_from]. rewrite Hp.
      destruct old as [|o old]; [discriminate|].
      cbn [String.length PyStr.drop Nat.sub] in *. rewrite Nat.sub_0_r.
      rewrite replace_from_skip.
      apply (replace_absent _ EmptyString) in Hc. exact Hc.
  - apply replace_absent.
Qed.

(** C8: the detail extractor returns the record with the input URL as its
    link and both the email and the website at "Not found" when the fetch
    fails, and when the fetched page has no contact-info container. *)
Theorem scrape_not_found_without_page_or_container
    (web : nat → string → dict → option Soup.element) url hdrs w :
  (web (length (requests w)) url hdrs = None ∨
   ∃ soup, web (length (requests w)) url hdrs = Some soup ∧
           Soup.find "div" (Some contact_class) soup = None) →
  (scrape_business_page web url hdrs w).2 = Ok (Details url not_found not_found).
Proof.
  rewrite scrape_business_page_unfold. cbn [snd].
  intros [-> | (soup & -> & Hnone)]; [reflexivity|].
  unfold scrape_soup. fold contact_class. rewrite Hnone. reflexivity.
Qed.

Lemma scrape_not_found_without_page_or_container_witness :
  (scrape_business_page (always None) acme_url headers fresh).2
    = Ok (Details acme_url not_found not_found) ∧
  (scrape_business_page (always (Some (Soup.document []))) acme_url headers fresh).2
    = Ok (Details acme_url not_found not_found).
Proof.
  split; apply scrape_not_found_without_page_or_container.
  - left. reflexivity.
  - right. eexists. split; reflexivity.
Defined.

(** C1: on a page with the contact-info container, the website is written
    into the record only when an email anchor was found (by its class or as
    the sibling of the email icon): with no email anchor the record comes
    back with the website at "Not found", whatever website anchor there is;
    a record whose website is not "Not found" had an email anchor, and its
    website is the href of the website anchor. *)
Theorem website_gated_on_email
    (web : nat → string → dict → option Soup.element) url hdrs w soup info :
  web (length (requests w)) url hdrs = Some soup →
  Soup.find "div" (Some contact_class) soup = Some info →
  (email_link_element info = None →
   (scrape_business_page web url hdrs w).2 = Ok (Details url not_found not_found)) ∧
  (∀ d, (scrape_business_page web url hdrs w).2 = Ok d →
        details_website d ≠ not_found →
        is_Some (email_link_element info) ∧
        ∃ a, website_link_element info = Some (Some a) ∧
             Soup.lookup_attr "href" (Soup.attrs a) = Some (details_website d)).
Proof.
  intros Hweb Hinfo. rewrite scrape_business_page_unfold, Hweb. cbn [snd].
  split.
  - intros Hemail. eapply scrape_soup_no_email; eauto.
  - intros d Hd Hsite. destruct (email_link_element info) as [em|] eqn:Hemail.
    + split; [eauto|]. unfold scrape_soup in Hd. fold contact_class in Hd.
      rewrite Hinfo, Hemail in Hd.
      destruct (website_link_element info) as [[a|]|]; try discriminate.
      * cbn in Hd. unfold Soup.getitem in Hd.
        destruct (Soup.lookup_attr "href" (Soup.attrs a)) as [site|] eqn:Ha; [|discriminate].
        cbn in Hd. destruct (Soup.lookup_attr "href" (Soup.attrs em)); [|discriminate].
        injection Hd as <-. eauto.
      * injection Hd as <-. contradiction.
    + rewrite (scrape_soup_no_email url soup info Hinfo Hemail) in Hd.
      injection Hd as <-. contradiction.
Qed.

Lemma website_gated_on_email_witness :
  (scrape_business_page (always (Some page_website_only)) acme_url headers fresh).2
    = Ok (Details acme_url not_found not_found).
Proof.
  eapply (website_gated_on_email (always (Some page_website_only)) acme_url headers fresh);
    reflexivity.
Defined.

(** C2: the extractor raises on missing structure.  With an email anchor
    found and the website icon the last tag of the contact block,
    [website_link_element] is [None] and [None['href']] raises a TypeError;
    with a tag after the icon that has no href, the subscript raises a
    KeyError.  No record is returned in either case. *)
Theorem scrape_raises_on_missing_website_anchor :
  (scrape_business_page (always (Some page_icon_last)) acme_url headers fresh).2
    = Raise TypeError ∧
  (scrape_business_page (always (Some page_sibling_without_href)) acme_url headers fresh).2
    = Raise (KeyError "href").
Proof. split; reflexivity. Qed.

(** C7, as stated, fails: a "mailto:" inside the href is removed as well. *)
Lemma email_inner_mailto_removed :
  ∃ d, (scrape_business_page (always (Some page_two_mailto)) acme_url headers fresh).2 = Ok d ∧
       details_email d = "a@b.com?cc=c@d.com" ∧
       email_as_specified "mailto:a@b.com?cc=mailto:c@d.com" = "a@b.com?cc=mailto:c@d.com" ∧
       details_email d ≠ email_as_specified "mailto:a@b.com?cc=mailto:c@d.com".
Proof. eexists. repeat split. discriminate. Qed.

(** C7, amended: the email of a returned record is the href of the email
    anchor with every occurrence of "mailto:" removed (from left to right,
    without overlap) and the result trimmed.  When "mailto:" does not occur
    in the href after a leading "mailto:", this is the href without that
    prefix, trimmed. *)
Theorem email_is_href_without_mailto
    (web : nat → string → dict → option Soup.element) url hdrs w soup info em d :
  web (length (requests w)) url hdrs = Some soup →
  Soup.find "div" (Some contact_class) soup = Some info →
  is_Some (website_link_element info) →
  email_link_element info = Some em →
  (scrape_business_page web url hdrs w).2 = Ok d →
  ∃ href,
    Soup.lookup_attr "href" (Soup.attrs em) = Some href ∧
    details_email d = PyStr.strip (PyStr.replace "mailto:" EmptyString href) ∧
    (PyStr.contains "mailto:" (removeprefix "mailto:" href) = false →
     details_email d = email_as_specified href).
Proof.
  intros Hweb Hinfo [o Hsite] Hemail Hd.
  rewrite scrape_business_page_unfold, Hweb in Hd. cbn [snd] in Hd.
  unfold scrape_soup in Hd. fold contact_class in Hd.
  rewrite Hinfo, Hemail, Hsite in Hd.
  destruct (getitem_opt o "href") as [site|]; [|discriminate]. cbn in Hd.
  unfold Soup.getitem in Hd.
  destruct (Soup.lookup_attr "href" (Soup.attrs em)) as [href|]; [|discriminate].
  injection Hd as <-. exists href. cbn [details_email]. repeat split.
  intros Habsent. unfold email_as_specified.
  rewrite <- (replace_only_prefix _ _ Habsent). reflexivity.
Qed.

Lemma email_is_href_without_mailto_witness :
  ∃ href,
    Soup.lookup_attr "href" [("href", "mailto: info@acme.ie ")] = Some href ∧
    "info@acme.ie" = PyStr.strip (PyStr.replace "mailto:" EmptyString href) ∧
    (PyStr.contains "mailto:" (removeprefix "mailto:" href) = false →
     "info@acme.ie" = email_as_specified href).
Proof.
  apply (email_is_href_without_mailto (always (Some page_plain)) acme_url headers fresh
           page_plain (contact_info block_plain)
           (Soup.Element "a" [] [("href", "mailto: info@acme.ie ")] [] [])
           (Details acme_url "info@acme.ie" acme_site)).
  - reflexivity.
  - reflexivity.
  - eexists. reflexivity.
  - reflexivity.
  - reflexivity.
Defined.

(** ** The search-result extractor *)

Lemma append_empty s : EmptyString +:+ s = s.
Proof. reflexivity. Qed.

Lemma append_String c s t : String c s +:+ t = String c (s +:+ t).
Proof. reflexivity. Qed.

Lemma prefix_char ch c s :
  String.prefix (String ch EmptyString) (String c s) = bool_decide (ch = c).
Proof.
  cbn. destruct (ascii_dec ch c), s; cbn; case_bool_decide; congruence.
Qed.

Lemma partition_first (ch : ascii) before after :
  PyStr.contains (String ch EmptyString) before = false →
  PyStr.partition (String ch EmptyString) (before +:+ String ch after)
    = Some (before, after).
Proof.
  induction before as [|c b IH]; intros Hc.
  - rewrite append_empty. cbn [PyStr.partition]. rewrite prefix_char.
    rewrite bool_decide_eq_true_2 by reflexivity. reflexivity.
  - cbn [PyStr.contains] in Hc. apply orb_false_iff in Hc as [Hp Hc].
    rewrite append_String. cbn [PyStr.partition].
    rewrite prefix_char in Hp |- *. rewrite Hp, (IH Hc). reflexivity.
Qed.

Lemma extract_listing_resolved businesses c a href :
  title_link c = Some a →
  Soup.lookup_attr "href" (Soup.attrs a) = Some href →
  href ≠ EmptyString →
  extract_listing businesses c =
    (n ← name_getitem_1 (NameParts (PyStr.split1 "." (Soup.text a)));
     Ok (businesses ++ [Listing (PyStr.strip n) href])).
Proof.
  unfold title_link, extract_listing, Soup.getitem. intros -> -> Hne.
  destruct href; [congruence | reflexivity].
Qed.

Lemma extract_listing_no_period businesses c a href :
  title_link c = Some a →
  Soup.lookup_attr "href" (Soup.attrs a) = Some href →
  href ≠ EmptyString →
  PyStr.contains "." (Soup.text a) = false →
  extract_listing businesses c = Raise IndexError.
Proof.
  intros Ha Hhref Hne Hc. rewrite (extract_listing_resolved _ _ _ _ Ha Hhref Hne).
  unfold PyStr.split1. rewrite (partition_absent _ _ Hc). reflexivity.
Qed.

(** A title link with an empty href is skipped, whatever its text. *)
Lemma extract_listing_empty_href businesses c a :
  title_link c = Some a →
  Soup.lookup_attr "href" (Soup.attrs a) = Some EmptyString →
  extract_listing businesses c = Ok businesses.
Proof.
  unfold title_link, extract_listing, Soup.getitem. intros -> ->. reflexivity.
Qed.

Lemma extract_listings_app businesses l1 l2 :
  extract_listings businesses (l1 ++ l2) =
    (businesses' ← extract_listings businesses l1; extract_listings businesses' l2).
Proof.
  revert businesses. induction l1 as [|c l1 IH]; intros businesses; [reflexivity|].
  cbn [app extract_listings]. destruct (extract_listing businesses c); [|reflexivity].
  apply IH.
Qed.

(** C6: on a listing-index page with one container whose title link has
    the href [href] and a text with a first period, the extractor returns
    one entry: its name is the text after the first period, trimmed, and its
    link is [href].  The witness is the page of the scenario, with
    [<a href="/biz/123">Acme.Plumbing Co</a>]. *)
Theorem extract_single_listing soup c a href before after :
  Soup.find_all "div" (Some "listing_container") soup = [c] →
  title_link c = Some a →
  Soup.lookup_attr "href" (Soup.attrs a) = Some href →
  href ≠ EmptyString →
  Soup.text a = before +:+ "." +:+ after →
  PyStr.contains "." before = false →
  extract_links_from_search soup = Ok [Listing (PyStr.strip after) href].
Proof.
  intros Hall Ha Hhref Hne Htext Hfirst. unfold extract_links_from_search.
  rewrite Hall. cbn [extract_listings].
  rewrite (extract_listing_resolved _ _ _ _ Ha Hhref Hne), Htext.
  unfold PyStr.split1. rewrite append_String, append_empty.
  rewrite (partition_first "." before after Hfirst). reflexivity.
Qed.

Lemma extract_single_listing_witness :
  extract_links_from_search acme_page = Ok [Listing "Plumbing Co" "/biz/123"].
Proof.
  apply (extract_single_listing acme_page
           (Soup.Element "div" ["listing_container"] []
              [Soup.Tag "h3" ["listing_title"] []
                 [Soup.Tag "a" [] [("href", "/biz/123")]
                    [Soup.NavigableString "Acme.Plumbing Co"]]] [])
           (Soup.Element "a" [] [("href", "/biz/123")]
              [Soup.NavigableString "Acme.Plumbing Co"] [])
           "/biz/123" "Acme" "Plumbing Co"); try reflexivity.
  discriminate.
Defined.

Lemma extract_listing_ok businesses businesses' c :
  extract_listing businesses c = Ok businesses' → period_in_title c.
Proof.
  intros Hok a (Ha & href & Hhref & Hne).
  destruct (PyStr.contains "." (Soup.text a)) eqn:Hc; [reflexivity|].
  rewrite (extract_listing_no_period _ _ _ _ Ha Hhref Hne Hc) in Hok. discriminate.
Qed.

Lemma extract_listings_ok businesses businesses' cs :
  extract_listings businesses cs = Ok businesses' → Forall period_in_title cs.
Proof.
  revert businesses. induction cs as [|c cs IH]; intros businesses Hok; [constructor|].
  cbn [extract_listings] in Hok.
  destruct (extract_listing businesses c) as [b1|] eqn:Hc; [|discriminate].
  constructor; [eapply extract_listing_ok | eapply IH]; eauto.
Qed.

(** C9: the extractor is partial.  The text of a title link without a
    period splits into one piece; when the containers before one with a
    resolvable title link and such a text went through, the extractor raises
    an IndexError; and whenever the extractor returns, the text of every
    resolvable title link of the page holds a period. *)
Theorem extract_links_needs_period :
  (∀ t, PyStr.contains "." t = false → PyStr.split1 "." t = [t]) ∧
  (∀ soup before c after businesses a,
     Soup.find_all "div" (Some "listing_container") soup = before ++ c :: after →
     extract_listings [] before = Ok businesses →
     resolvable c a →
     PyStr.contains "." (Soup.text a) = false →
     extract_links_from_search soup = Raise IndexError) ∧
  (∀ soup businesses,
     extract_links_from_search soup = Ok businesses →
     Forall period_in_title (Soup.find_all "div" (Some "listing_container") soup)).
Proof.
  split; [|split].
  - intros t Hc. unfold PyStr.split1. rewrite (partition_absent _ _ Hc). reflexivity.
  - intros soup before c after businesses a Hall Hbefore (Ha & href & Hhref & Hne) Hc.
    unfold extract_links_from_search. rewrite Hall, extract_listings_app, Hbefore.
    cbn [mbind result_bind extract_listings].
    rewrite (extract_listing_no_period _ _ _ _ Ha Hhref Hne Hc).
    destruct before; reflexivity.
  - intros soup businesses. unfold extract_links_from_search.
    destruct (Soup.find_all "div" (Some "listing_container") soup) as [|c cs] eqn:Hall;
      [constructor|].
    apply extract_listings_ok.
Qed.

Lemma extract_links_needs_period_witness :
  PyStr.split1 "." "Acme" = ["Acme"] ∧
  extract_links_from_search page_no_period = Raise IndexError ∧
  Forall period_in_title (Soup.find_all "div" (Some "listing_container") acme_page).
Proof.
  destruct extract_links_needs_period as (Hsplit & Hraise & Hok).
  split; [|split].
  - apply Hsplit. reflexivity.
  - eapply (Hraise page_no_period
              [Soup.Element "div" ["listing_container"] []
                 [Soup.Tag "h3" ["listing_title"] []
                    [Soup.Tag "a" [] [("href", "/biz/1")]
                       [Soup.NavigableString "1.Bolt Plumbers"]]]
                 [Soup.Tag "div" ["listing_container"] []
                    [Soup.Tag "h3" ["listing_title"] []
                       [Soup.Tag "a" [] [("href", "/biz/2")]
                          [Soup.NavigableString "Acme"]]]]]
              _ []
              [Listing "Bolt Plumbers" "/biz/1"]
              (Soup.Element "a" [] [("href", "/biz/2")] [Soup.NavigableString "Acme"] [])).
    + reflexivity.
    + reflexivity.
    + split; [reflexivity|]. eexists. split; [reflexivity | discriminate].
    + reflexivity.
  - eapply Hok. reflexivity.
Defined.

(** ** Phase 1: pagination *)

Lemma append_length s t : String.length (s +:+ t) = String.length s + String.length t.
Proof. induction s as [|c s IH]; [reflexivity|]. rewrite append_String. cbn. lia. Qed.

Lemma append_cancel_r s1 s2 t : s1 +:+ t = s2 +:+ t → s1 = s2.
Proof.
  revert s2. induction s1 as [|a s1 IH]; intros [|b s2] H.
  - reflexivity.
  - apply (f_equal String.length) in H. rewrite !append_length in H. cbn in H. lia.
  - apply (f_equal String.length) in H. rewrite !append_length in H. cbn in H. lia.
  - rewrite !append_String in H. injection H as -> H. f_equal. auto.
Qed.

Lemma current_url_first : current_url 1 = base_url_pattern.
Proof. reflexivity. Qed.

Lemma current_url_inj p q : 1 ≤ p → 1 ≤ q → current_url p = current_url q → p = q.
Proof.
  unfold current_url. intros Hp Hq.
  destruct (Nat.ltb_spec 1 p) as [Hp1|Hp1], (Nat.ltb_spec 1 q) as [Hq1|Hq1];
    intros H; try lia.
  - apply (inj (String.append base_url_pattern)) in H.
    apply append_cancel_r in H. apply (inj pretty) in H. exact H.
  - apply (f_equal String.length) in H. rewrite !append_length in H. cbn in H. lia.
  - apply (f_equal String.length) in H. rewrite !append_length in H. cbn in H. lia.
Qed.

Section Pagination.
Variable web : nat → string → dict → option Soup.element.

(** One turn of the loop of phase 1. *)
Lemma main_phase1_cons page_num rest set w :
  main_phase1 web (page_num :: rest) set w =
  let w1 := World (requests w ++ [current_url page_num]) (slept w) (files w) (locked w) in
  match web (length (requests w)) (current_url page_num) headers with
  | Some soup =>
      match extract_links_from_search soup with
      | Ok [] => (w1, Ok set)
      | Ok links_on_page =>
          main_phase1 web rest (add_links set links_on_page)
            (World (requests w1) (slept w1 + 2) (files w1) (locked w1))
      | Raise e => (w1, Raise e)
      end
  | None => (w1, Ok set)
  end.
Proof.
  cbn [main_phase1]. unfold_M.
  destruct (web _ _ _) as [soup|]; [|reflexivity].
  destruct (extract_links_from_search soup) as [[|l ls]|]; reflexivity.
Qed.

Lemma main_phase1_stops k : ∀ n first set w,
  k < n →
  (∀ i, i < k → yields_links (answer web w first i)) →
  ends_pagination (answer web w first k) →
  ∃ set',
    main_phase1 web (seq first n) set w =
    (World (requests w ++ (current_url <$> seq first (S k)))
           (slept w + 2 * k) (files w) (locked w), Ok set').
Proof.
  induction k as [|k IH]; intros n first set w Hn Hbefore Hend.
  - destruct n as [|n]; [lia|]. cbn [seq]. rewrite main_phase1_cons. cbn zeta.
    unfold answer in Hend. rewrite !Nat.add_0_r in Hend.
    exists set. replace (slept w + 2 * 0) with (slept w) by lia.
    destruct Hend as [-> | (soup & -> & ->)]; reflexivity.
  - destruct n as [|n]; [lia|]. cbn [seq]. rewrite main_phase1_cons. cbn zeta.
    destruct (Hbefore 0 ltac:(lia)) as (soup & l & ls & Hpage & Hlinks).
    unfold answer in Hpage. rewrite !Nat.add_0_r in Hpage. rewrite Hpage, Hlinks.
    cbn [requests slept files locked].
    edestruct (IH n (S first) (add_links set (l :: ls))
                 (World (requests w ++ [current_url first]) (slept w + 2) (files w) (locked w)))
      as [set' Hrun].
    + lia.
    + intros i Hi. specialize (Hbefore (S i) ltac:(lia)). unfold answer in *.
      cbn [requests]. rewrite length_app. cbn [length].
      replace (length (requests w) + 1 + i) with (length (requests w) + S i) by lia.
      replace (S first + i) with (first + S i) by lia. exact Hbefore.
    + unfold answer in *. cbn [requests]. rewrite length_app. cbn [length].
      replace (length (requests w) + 1 + k) with (length (requests w) + S k) by lia.
      replace (S first + k) with (first + S k) by lia. exact Hend.
    + exists set'. rewrite Hrun. cbn [requests slept files locked].
      rewrite <- app_assoc. cbn [app fmap list_fmap seq].
      replace (slept w + 2 + 2 * k) with (slept w + 2 * S k) by lia. reflexivity.
Qed.
End Pagination.

(** C5: when the pages before page [k] gave listings and page [k] has no
    listing container or its fetch fails, phase 1 returns without raising
    and has requested pages 1 to [k] and nothing else: no later page is
    requested.  Page 1 is requested at the bare base URL.  With a ceiling of
    3 and [k = 2] these are pages 1 and 2, and page 3 is not requested. *)
Theorem pagination_halts
    (web : nat → string → dict → option Soup.element) max_pages k w :
  1 ≤ k ≤ max_pages →
  (∀ p, 1 ≤ p < k → yields_links (page_answer web w p)) →
  (page_answer web w k = None ∨
   ∃ soup, page_answer web w k = Some soup ∧
           Soup.find_all "div" (Some "listing_container") soup = []) →
  ∃ set,
    main_phase1 web (seq 1 max_pages) ∅ w =
      (World (requests w ++ (current_url <$> seq 1 k))
             (slept w + 2 * (k - 1)) (files w) (locked w), Ok set) ∧
    current_url 1 = base_url_pattern ∧
    ∀ p, k < p → current_url p ∉ current_url <$> seq 1 k.
Proof.
  intros Hk Hbefore Hend.
  destruct (main_phase1_stops web (k - 1) max_pages 1 ∅ w) as [set Hrun].
  - lia.
  - intros i Hi. specialize (Hbefore (S i) ltac:(lia)).
    unfold page_answer in Hbefore. unfold answer.
    replace (S i - 1) with i in Hbefore by lia. exact Hbefore.
  - unfold answer. replace (1 + (k - 1)) with k by lia.
    destruct Hend as [Hnone | (soup & Hpage & Hzero)]; [left; exact Hnone|].
    right. exists soup. split; [exact Hpage|].
    unfold extract_links_from_search. rewrite Hzero. reflexivity.
  - exists set. replace (S (k - 1)) with k in Hrun by lia.
    split; [exact Hrun|]. split; [reflexivity|].
    intros p Hp [q [Heq Hq%elem_of_seq]]%list_elem_of_fmap.
    apply current_url_inj in Heq; lia.
Qed.

Lemma pagination_halts_witness :
  ∃ set,
    main_phase1 web_empty_second (seq 1 3) ∅ fresh =
      (World ([] ++ (current_url <$> seq 1 2)) (0 + 2 * (2 - 1)) ∅ ∅, Ok set) ∧
    current_url 1 = base_url_pattern ∧
    ∀ p, 2 < p → current_url p ∉ current_url <$> seq 1 2.
Proof.
  apply (pagination_halts web_empty_second 3 2 fresh).
  - lia.
  - intros p Hp. assert (p = 1) as -> by lia.
    eexists _, _, _. split; reflexivity.
  - right. eexists. split; reflexivity.
Defined.

(** ** Phase 1: the set of links *)

Lemma add_links_union set links : add_links set links = set ∪ list_to_set links.
Proof.
  unfold add_links. revert set. induction links as [|l links IH]; intros set; cbn.
  - set_solver.
  - rewrite IH. set_solver.
Qed.

Lemma main_phase1_set web pages : ∀ set w w' set',
  main_phase1 web pages set w = (w', Ok set') →
  set' = set ∪ list_to_set (collected web (length (requests w)) pages).
Proof.
  induction pages as [|page_num rest IH]; intros set w w' set' Hrun.
  - cbn in Hrun. injection Hrun as _ <-. cbn. set_solver.
  - rewrite main_phase1_cons in Hrun. cbn zeta in Hrun. cbn [collected].
    destruct (web _ _ _) as [soup|].
    + destruct (extract_links_from_search soup) as [[|l ls]|].
      * injection Hrun as _ <-. set_solver.
      * apply IH in Hrun. cbn [requests] in Hrun.
        rewrite length_app, Nat.add_1_r in Hrun.
        rewrite Hrun, add_links_union, list_to_set_app_L. set_solver.
      * discriminate.
    + injection Hrun as _ <-. set_solver.
Qed.

Lemma filter_none {A} (P : A → Prop) `{∀ x, Decision (P x)} (l : list A) :
  (∀ x, x ∈ l → ¬ P x) → filter P l = [].
Proof.
  induction l as [|x l IH]; intros Hl; [reflexivity|].
  rewrite filter_cons_False by (apply Hl; left).
  apply IH. intros y Hy. apply Hl. right. exact Hy.
Qed.

Lemma filter_unique {A} (P : A → Prop) `{∀ x, Decision (P x)} (l : list A) r :
  NoDup l → r ∈ l → (∀ x, P x ↔ x = r) → filter P l = [r].
Proof.
  intros Hnd Hr HP. induction Hnd as [|x l Hx Hnd IH]; [inversion Hr|].
  destruct (decide (P x)) as [Px|Px].
  - rewrite filter_cons_True by exact Px. apply HP in Px as ->.
    rewrite filter_none; [reflexivity|].
    intros y Hy Py. apply HP in Py. congruence.
  - rewrite filter_cons_False by exact Px.
    apply IH. inversion Hr; subst; [|assumption].
    exfalso. apply Px, HP. reflexivity.
Qed.

Lemma same_fields_eq r e : same_fields r e ↔ e = r.
Proof.
  unfold same_fields. destruct r, e; cbn. split; [intros [-> ->] | intros [= -> ->]]; auto.
Qed.

(** C4: the list made from the set of phase 1 holds, for every entry
    collected, exactly one entry with the same name and link, however often
    it was collected, and nothing that was not collected; entries that
    differ in their name or in their link are both in it, at different
    places. *)
Theorem links_deduplicated
    (web : nat → string → dict → option Soup.element)
    (set_iter : gset listing → list listing) pages w set :
  (∀ s, set_iter s ≡ₚ elements s) →
  (main_phase1 web pages ∅ w).2 = Ok set →
  let entries := collected web (length (requests w)) pages in
  let all_business_links := set_iter set in
  NoDup all_business_links ∧
  (∀ r, r ∈ entries → filter (same_fields r) all_business_links = [r]) ∧
  (∀ r, r ∈ all_business_links → r ∈ entries) ∧
  (∀ r1 r2, r1 ∈ entries → r2 ∈ entries →
     listing_name r1 ≠ listing_name r2 ∨ listing_link r1 ≠ listing_link r2 →
     ∃ i j, i ≠ j ∧ all_business_links !! i = Some r1 ∧ all_business_links !! j = Some r2).
Proof.
  intros Hperm Hrun entries all_business_links.
  destruct (main_phase1 web pages ∅ w) as [w' r] eqn:Hrun'. cbn in Hrun. subst r.
  apply main_phase1_set in Hrun'. fold entries in Hrun'.
  assert (Hnd : NoDup all_business_links).
  { unfold all_business_links. rewrite Hperm. apply NoDup_elements. }
  assert (Hin : ∀ r, r ∈ all_business_links ↔ r ∈ entries).
  { intros r. unfold all_business_links. rewrite Hperm, elem_of_elements, Hrun'.
    set_solver. }
  split; [exact Hnd|]. split; [|split].
  - intros r Hr. apply filter_unique; [exact Hnd | apply Hin, Hr | apply same_fields_eq].
  - intros r. apply Hin.
  - intros r1 r2 H1 H2 Hdiff.
    apply Hin, list_elem_of_lookup in H1 as [i Hi].
    apply Hin, list_elem_of_lookup in H2 as [j Hj].
    exists i, j. split; [|auto]. intros ->.
    rewrite Hi in Hj. injection Hj as ->. destruct Hdiff; congruence.
Qed.

Lemma links_deduplicated_witness :
  let entries := [acme; bolt_2; acme; bolt_3] in
  let all_business_links := elements (list_to_set [acme; bolt_2; bolt_3] : gset listing) in
  NoDup all_business_links ∧
  (∀ r, r ∈ entries → filter (same_fields r) all_business_links = [r]) ∧
  (∀ r, r ∈ all_business_links → r ∈ entries) ∧
  (∀ r1 r2, r1 ∈ entries → r2 ∈ entries →
     listing_name r1 ≠ listing_name r2 ∨ listing_link r1 ≠ listing_link r2 →
     ∃ i j, i ≠ j ∧ all_business_links !! i = Some r1 ∧ all_business_links !! j = Some r2).
Proof.
  apply (links_deduplicated web_duplicates elements (seq 1 3) fresh
           (list_to_set [acme; bolt_2; bolt_3])).
  - intros s. reflexivity.
  - vm_compute. reflexivity.
Defined.

(** ** Phase 2 and the output *)

Section Output.
Variable web : nat → string → dict → option Soup.element.
Variable json_dump : list final_data → string.
Variable set_iter : gset listing → list listing.

(** One turn of the loop of phase 2. *)
Lemma main_phase2_cons business rest all_scraped_data w :
  main_phase2 web (business :: rest) all_scraped_data w =
  match scrape_business_page web (full_url business) headers w with
  | (w1, Ok details) =>
      main_phase2 web rest
        (if decide (details_website details ≠ not_found)
         then all_scraped_data ++
              [FinalData (listing_name business) (details_link details)
                         (details_email details) (details_website details)]
         else all_scraped_data)
        (World (requests w1) (slept w1 + 2) (files w1) (locked w1))
  | (w1, Raise e) => (w1, Raise e)
  end.
Proof.
  cbn [main_phase2]. unfold mbind at 1. unfold M_bind at 1. fold (full_url business).
  destruct (scrape_business_page web (full_url business) headers w) as [w1 [d|e]];
    reflexivity.
Qed.

(** The records appended before a later turn raises are those of the run
    over the links up to there. *)
Lemma main_phase2_app l1 l2 all_scraped_data w :
  main_phase2 web (l1 ++ l2) all_scraped_data w =
  (data ← main_phase2 web l1 all_scraped_data; main_phase2 web l2 data) w.
Proof.
  revert all_scraped_data w. induction l1 as [|b l1 IH]; intros acc w; [reflexivity|].
  cbn [app]. unfold mbind, M_bind. rewrite !main_phase2_cons.
  destruct (scrape_business_page web (full_url b) headers w) as [w1 [d|e]];
    [|reflexivity].
  rewrite IH. reflexivity.
Qed.

Lemma main_phase2_has_website all_business_links : ∀ all_scraped_data w w' out,
  main_phase2 web all_business_links all_scraped_data w = (w', Ok out) →
  Forall has_website all_scraped_data → Forall has_website out.
Proof.
  induction all_business_links as [|b rest IH]; intros acc w w' out Hrun Hacc.
  - cbn in Hrun. injection Hrun as _ <-. exact Hacc.
  - rewrite main_phase2_cons in Hrun.
    destruct (scrape_business_page web (full_url b) headers w) as [w1 [d|e]];
      [|discriminate].
    eapply IH; [exact Hrun|]. case_decide; [|exact Hacc].
    apply Forall_app. split; [exact Hacc|]. repeat constructor. assumption.
Qed.

Lemma main_phase1_files pages : ∀ set w,
  files (main_phase1 web pages set w).1 = files w ∧
  locked (main_phase1 web pages set w).1 = locked w.
Proof.
  induction pages as [|p rest IH]; intros set w; [split; reflexivity|].
  rewrite main_phase1_cons. cbn zeta.
  destruct (web _ _ _) as [soup|]; [|split; reflexivity].
  destruct (extract_links_from_search soup) as [[|l ls]|]; try (split; reflexivity).
  edestruct IH as [Hf Hl]. rewrite Hf, Hl. split; reflexivity.
Qed.

Lemma main_phase2_files all_business_links : ∀ all_scraped_data w,
  files (main_phase2 web all_business_links all_scraped_data w).1 = files w ∧
  locked (main_phase2 web all_business_links all_scraped_data w).1 = locked w.
Proof.
  induction all_business_links as [|b rest IH]; intros acc w; [split; reflexivity|].
  rewrite main_phase2_cons, scrape_business_page_unfold.
  destruct (match web _ _ _ with Some _ => _ | None => _ end) as [d|e];
    [|split; reflexivity].
  edestruct IH as [Hf Hl]. rewrite Hf, Hl. split; reflexivity.
Qed.

(** What [main] leaves in the files: nothing new, or the dump of a
    collection of records with a website in the JSON file. *)
Lemma main_upto_files max_pages w :
  files (main_upto web json_dump set_iter max_pages w).1 = files w ∨
  ∃ all_scraped_data,
    Forall has_website all_scraped_data ∧
    files (main_upto web json_dump set_iter max_pages w).1
      = <[json_file_name := json_dump all_scraped_data]> (files w).
Proof.
  unfold main_upto, mbind, M_bind.
  pose proof (main_phase1_files (seq 1 max_pages) ∅ w) as [Hf1 Hl1].
  destruct (main_phase1 web (seq 1 max_pages) ∅ w) as [w1 [set|e]]; [|left; exact Hf1].
  cbn [fst] in Hf1, Hl1.
  destruct (set_iter set) as [|b links]; [left; exact Hf1|].
  pose proof (main_phase2_files (b :: links) [] w1) as [Hf2 Hl2].
  destruct (main_phase2 web (b :: links) [] w1) as [w2 [out|e]] eqn:Hrun;
    cbn [fst] in Hf2, Hl2; [|left; cbn; congruence].
  apply main_phase2_has_website in Hrun; [|constructor].
  unfold main_phase3, write_file.
  destruct out as [|r out]; [left; cbn; congruence|].
  case_decide; [left; cbn; congruence|].
  right. exists (r :: out). split; [exact Hrun|]. cbn. rewrite Hf2, Hf1. reflexivity.
Qed.
End Output.

(** C3: the collection that phase 2 returns, for any links and any site,
    holds no record whose website is "Not found" (the collection reached
    before a later turn is the one returned for the links up to there, see
    [main_phase2_app]); and whatever [main] writes into the JSON file is the
    dump of a collection without such a record. *)
Theorem output_never_not_found
    (web : nat → string → dict → option Soup.element)
    (json_dump : list final_data → string)
    (set_iter : gset listing → list listing) :
  (∀ all_business_links w w' all_scraped_data,
     main_phase2 web all_business_links [] w = (w', Ok all_scraped_data) →
     Forall (λ r, website r ≠ not_found) all_scraped_data) ∧
  (∀ max_pages w,
     files (main_upto web json_dump set_iter max_pages w).1 = files w ∨
     ∃ all_scraped_data,
       Forall (λ r, website r ≠ not_found) all_scraped_data ∧
       files (main_upto web json_dump set_iter max_pages w).1
         = <[json_file_name := json_dump all_scraped_data]> (files w)).
Proof.
  split.
  - intros links w w' out Hrun.
    eapply (main_phase2_has_website web); [exact Hrun | constructor].
  - intros max_pages w. apply main_upto_files.
Qed.

Lemma output_never_not_found_witness :
  main_phase2 web_details [acme; bolt_2] [] fresh
    = (World [full_url acme; full_url bolt_2] 4 ∅ ∅,
       Ok [FinalData "Acme" (full_url acme) "info@acme.ie" acme_site]) ∧
  Forall (λ r, website r ≠ not_found)
         [FinalData "Acme" (full_url acme) "info@acme.ie" acme_site].
Proof.
  assert (Hrun : main_phase2 web_details [acme; bolt_2] [] fresh
                 = (World [full_url acme; full_url bolt_2] 4 ∅ ∅,
                    Ok [FinalData "Acme" (full_url acme) "info@acme.ie" acme_site]))
    by reflexivity.
  split; [exact Hrun|].
  exact (proj1 (output_never_not_found web_details (λ _, EmptyString) elements) _ _ _ _ Hrun).
Defined.

(** ** [save_to_csv] *)

(** C10: called with an empty list, [save_to_csv] returns at once and
    leaves the world as it was: no file is opened or written, whatever the
    name, the mode and the header flag. *)
Theorem save_to_csv_empty (csv_row : list string → string) filename mode header w :
  save_to_csv csv_row [] filename mode header w = (w, Ok tt).
Proof. reflexivity. Qed.

(** With data and a path that can be opened, the file is written. *)
Lemma save_to_csv_writes (csv_row : list string → string) first rest filename mode header w :
  filename ∉ locked w →
  is_Some (files (save_to_csv csv_row (first :: rest) filename mode header w).1 !! filename).
Proof.
  intros Hfree. unfold save_to_csv, write_file.
  rewrite decide_False by exact Hfree. cbn. rewrite lookup_insert_eq. eauto.
Qed.


(** ** Further properties of the script *)

(** X1: on a page whose contact-info container has neither a website anchor
    of class yext.homepage nor a website icon, the extractor returns at once
    with both fields at "Not found": an email anchor in the container is
    not looked at. *)
Theorem scrape_returns_early_without_website
    (web : nat → string → dict → option Soup.element) url hdrs w soup info :
  web (length (requests w)) url hdrs = Some soup →
  Soup.find "div" (Some contact_class) soup = Some info →
  website_link_element info = None →
  (scrape_business_page web url hdrs w).2 = Ok (Details url not_found not_found).
Proof.
  intros Hweb Hinfo Hsite. rewrite scrape_business_page_unfold, Hweb. cbn [snd].
  unfold scrape_soup. fold contact_class. rewrite Hinfo, Hsite. reflexivity.
Qed.

Lemma scrape_returns_early_without_website_witness :
  (scrape_business_page (always (Some page_email_only)) acme_url headers fresh).2
    = Ok (Details acme_url not_found not_found).
Proof.
  eapply (scrape_returns_early_without_website
            (always (Some page_email_only)) acme_url headers fresh);
    reflexivity.
Defined.

(** X2: a container without a title heading, without an anchor in it, or
    whose title link has an empty href adds no entry and raises nothing. *)
Theorem extract_listing_skips businesses c :
  (title_link c = None ∨
   ∃ a, title_link c = Some a ∧
        Soup.lookup_attr "href" (Soup.attrs a) = Some EmptyString) →
  extract_listing businesses c = Ok businesses.
Proof.
  intros [Hnone | (a & Ha & Hhref)].
  - unfold title_link in Hnone. unfold extract_listing. rewrite Hnone. reflexivity.
  - eapply extract_listing_empty_href; eauto.
Qed.

Lemma extract_listing_skips_witness :
  extract_listing [acme] (Soup.Element "div" ["listing_container"] [] [] []) = Ok [acme].
Proof.
  apply extract_listing_skips. left. reflexivity.
Defined.

(** X3: a container whose title link has no href attribute makes the
    extractor raise a KeyError. *)
Theorem extract_listing_without_href businesses c a :
  title_link c = Some a →
  Soup.lookup_attr "href" (Soup.attrs a) = None →
  extract_listing businesses c = Raise (KeyError "href").
Proof.
  unfold title_link, extract_listing, Soup.getitem. intros -> ->. reflexivity.
Qed.

Lemma extract_listing_without_href_witness :
  extract_links_from_search (listing_page [([("id", "x")], "1.Acme")])
    = Raise (KeyError "href").
Proof.
  unfold extract_links_from_search. cbn [Soup.find_all]. 
  change (extract_listing []
            (Soup.Element "div" ["listing_container"] []
               [Soup.Tag "h3" ["listing_title"] []
                  [Soup.Tag "a" [] [("id", "x")] [Soup.NavigableString "1.Acme"]]] [])
          ≫= (λ b, extract_listings b []) = Raise (KeyError "href")).
  rewrite (extract_listing_without_href []
             _ (Soup.Element "a" [] [("id", "x")] [Soup.NavigableString "1.Acme"] []));
    reflexivity.
Defined.

Lemma scrape_soup_link url soup d : scrape_soup url soup = Ok d → details_link d = url.
Proof.
  unfold scrape_soup.
  destruct (Soup.find _ _ soup) as [info|]; [|intros [= <-]; reflexivity].
  destruct (website_link_element info) as [o|]; [|intros [= <-]; reflexivity].
  destruct (email_link_element info) as [em|]; [|intros [= <-]; reflexivity].
  destruct (getitem_opt o "href"); [|discriminate]. cbn.
  destruct (Soup.getitem em "href"); [|discriminate]. cbn.
  intros [= <-]. reflexivity.
Qed.




(** X5: [save_to_csv] never raises, and leaves every file other than
    [filename] as it was. *)
Theorem save_to_csv_returns (csv_row : list string → string) data filename mode header w :
  (save_to_csv csv_row data filename mode header w).2 = Ok tt ∧
  ∀ other, other ≠ filename →
    files (save_to_csv csv_row data filename mode header w).1 !! other = files w !! other.
Proof.
  unfold save_to_csv, write_file. destruct data as [|first rest]; [auto|].
  case_decide; [auto|]. cbn. split; [reflexivity|].
  intros other Hother. rewrite lookup_insert_ne by congruence. reflexivity.
Qed.

(** X6: phase 1 issues at most one request per page of its range. *)
Theorem phase1_requests_bounded
    (web : nat → string → dict → option Soup.element) pages set w :
  length (requests (main_phase1 web pages set w).1) ≤ length (requests w) + length pages.
Proof.
  revert set w. induction pages as [|p rest IH]; intros set w; [cbn; lia|].
  rewrite main_phase1_cons. cbn zeta.
  destruct (web _ _ _) as [soup|]; [|cbn; rewrite length_app; cbn; lia].
  destruct (extract_links_from_search soup) as [[|l ls]|];
    try (cbn; rewrite length_app; cbn; lia).
  etransitivity; [apply IH|]. cbn. rewrite length_app. cbn. lia.
Qed.

(** ** The search-result extractor, in general *)

(** What a turn of the loop that returns has done. *)
Lemma extract_listing_Ok businesses c businesses' :
  extract_listing businesses c = Ok businesses' →
  (title_href c = None ∧ businesses' = businesses) ∨
  ∃ a href before after,
    title_link c = Some a ∧ title_href c = Some href ∧
    PyStr.partition "." (Soup.text a) = Some (before, after) ∧
    businesses' = businesses ++ [Listing (PyStr.strip after) href].
Proof.
  unfold title_href. destruct (title_link c) as [a|] eqn:Ha.
  - destruct (Soup.lookup_attr "href" (Soup.attrs a)) as [[|ch href]|] eqn:Hhref.
    + rewrite (extract_listing_empty_href _ _ _ Ha Hhref). intros [= <-]. auto.
    + rewrite (extract_listing_resolved _ _ _ _ Ha Hhref) by discriminate.
      unfold PyStr.split1.
      destruct (PyStr.partition "." (Soup.text a)) as [[before after]|] eqn:Hp;
        [|discriminate].
      intros [= <-]. right. exists a, (String ch href), before, after. auto.
    + unfold title_link in Ha. unfold extract_listing, Soup.getitem.
      rewrite Ha, Hhref. discriminate.
  - unfold title_link in Ha. unfold extract_listing. rewrite Ha. intros [= <-]. auto.
Qed.

Lemma extract_listing_returns businesses c :
  returns (extract_listing businesses c) ↔ container_ok c.
Proof.
  split.
  - intros [businesses' Hok] a Ha.
    destruct (Soup.lookup_attr "href" (Soup.attrs a)) as [href|] eqn:Hhref.
    + exists href. split; [reflexivity|].
      destruct href as [|ch href]; [left; reflexivity | right].
      destruct (PyStr.contains "." (Soup.text a)) eqn:Hc; [reflexivity|].
      rewrite (extract_listing_no_period _ _ _ _ Ha Hhref) in Hok
        by (discriminate || exact Hc).
      discriminate.
    + unfold title_link in Ha. unfold extract_listing, Soup.getitem in Hok.
      rewrite Ha, Hhref in Hok. discriminate.
  - intros Hc. unfold container_ok in Hc. destruct (title_link c) as [a|] eqn:Ha.
    + destruct (Hc a eq_refl) as (href & Hhref & Hcase).
      destruct href as [|ch href].
      * rewrite (extract_listing_empty_href _ _ _ Ha Hhref). eexists; reflexivity.
      * destruct Hcase as [|Hp]; [discriminate|].
        rewrite (extract_listing_resolved _ _ _ _ Ha Hhref) by discriminate.
        destruct (partition_present "." (Soup.text a) Hp) as [[before after] Hpart];
          [discriminate|].
        unfold PyStr.split1. rewrite Hpart. eexists; reflexivity.
    + unfold title_link in Ha. unfold extract_listing. rewrite Ha.
      eexists; reflexivity.
Qed.

Lemma extract_listings_returns cs : ∀ businesses,
  returns (extract_listings businesses cs) ↔ Forall container_ok cs.
Proof.
  induction cs as [|c cs IH]; intros businesses.
  - split; [constructor | eexists; reflexivity].
  - cbn [extract_listings]. rewrite Forall_cons, <- (extract_listing_returns businesses c).
    split.
    + intros [out Hout].
      destruct (extract_listing businesses c) as [b1|] eqn:Hc; [|discriminate].
      split; [eexists; reflexivity|]. apply (IH b1). eexists; exact Hout.
    + intros [[b1 Hc] Hcs]. rewrite Hc. apply (IH b1), Hcs.
Qed.

(** X7: the extractor returns exactly when every listing container of the
    page is one that the loop gets through: its title link, if it has one,
    has an href, and a period in its text unless the href is empty.
    Otherwise it raises. *)
Theorem extract_links_returns_iff soup :
  returns (extract_links_from_search soup) ↔
  Forall container_ok (Soup.find_all "div" (Some "listing_container") soup).
Proof.
  unfold extract_links_from_search.
  destruct (Soup.find_all "div" (Some "listing_container") soup) as [|c cs].
  - split; [constructor | eexists; reflexivity].
  - apply extract_listings_returns.
Qed.

Lemma rstrip_rstrip s : PyStr.rstrip (PyStr.rstrip s) = PyStr.rstrip s.
Proof.
  induction s as [|c s IH]; [reflexivity|]. cbn [PyStr.rstrip].
  destruct (PyStr.rstrip s) as [|d r] eqn:Hr.
  - destruct (PyStr.isspace c) eqn:Hc; [reflexivity|]. cbn. rewrite Hc. reflexivity.
  - cbn [PyStr.rstrip] in IH |- *. rewrite IH. reflexivity.
Qed.

Lemma rstrip_keeps_head c s :
  PyStr.isspace c = false → ∃ r, PyStr.rstrip (String c s) = String c r.
Proof.
  intros Hc. cbn [PyStr.rstrip]. destruct (PyStr.rstrip s); rewrite ?Hc; eauto.
Qed.

Lemma lstrip_head s :
  PyStr.lstrip s = EmptyString ∨
  ∃ c r, PyStr.lstrip s = String c r ∧ PyStr.isspace c = false.
Proof.
  induction s as [|c s IH]; [left; reflexivity|]. cbn [PyStr.lstrip].
  destruct (PyStr.isspace c) eqn:Hc; [exact IH | right; eauto].
Qed.

Lemma strip_strip s : PyStr.strip (PyStr.strip s) = PyStr.strip s.
Proof.
  unfold PyStr.strip. destruct (lstrip_head s) as [-> | (c & r & -> & Hc)];
    [reflexivity|].
  destruct (rstrip_keeps_head c r Hc) as [r' Hr]. rewrite Hr.
  cbn [PyStr.lstrip]. rewrite Hc, <- Hr. apply rstrip_rstrip.
Qed.

Lemma omap_length_le {A B} (f : A → option B) (l : list A) :
  length (omap f l) ≤ length l.
Proof.
  induction l as [|x l IH]; [reflexivity|]. cbn. destruct (f x); cbn; lia.
Qed.

Lemma title_href_nonempty c href : title_href c = Some href → href ≠ EmptyString.
Proof.
  unfold title_href. destruct (title_link c) as [a|]; [|discriminate].
  destruct (Soup.lookup_attr _ _) as [[|ch h]|]; intros [= <-]; discriminate.
Qed.

(** What the loop of the extractor has added when it returns. *)
Lemma extract_listings_Ok cs : ∀ businesses out,
  extract_listings businesses cs = Ok out →
  ∃ new,
    out = businesses ++ new ∧
    listing_link <$> new = omap title_href cs ∧
    Forall (λ b, PyStr.strip (listing_name b) = listing_name b) new.
Proof.
  induction cs as [|c cs IH]; intros businesses out Hout.
  - injection Hout as <-. exists []. rewrite app_nil_r. repeat split. constructor.
  - cbn [extract_listings] in Hout.
    destruct (extract_listing businesses c) as [b1|] eqn:Hc; [|discriminate].
    apply IH in Hout as (new & -> & Hlinks & Hnames). cbn [omap list_omap].
    apply extract_listing_Ok in Hc
      as [[-> ->] | (a & href & before & after & Ha & -> & Hp & ->)].
    + exists new. auto.
    + exists (Listing (PyStr.strip after) href :: new).
      rewrite <- app_assoc. cbn [app fmap list_fmap listing_link].
      split; [reflexivity|]. split; [f_equal; exact Hlinks|].
      constructor; [apply strip_strip | exact Hnames].
Qed.

(** X8: when the extractor returns, the links of its entries are, in
    document order, the non-empty hrefs of the title links of the listing
    containers: one entry for each container with such an href and none for
    the others. *)
Theorem extract_links_in_document_order soup businesses :
  extract_links_from_search soup = Ok businesses →
  listing_link <$> businesses
    = omap title_href (Soup.find_all "div" (Some "listing_container") soup).
Proof.
  unfold extract_links_from_search.
  destruct (Soup.find_all "div" (Some "listing_container") soup) as [|c cs].
  - intros [= <-]. reflexivity.
  - intros (new & -> & Hlinks & _)%extract_listings_Ok. exact Hlinks.
Qed.

Lemma extract_links_in_document_order_witness :
  listing_link <$> [Listing "Acme" "/biz/1"; Listing "Bolt" "/biz/3"]
    = omap title_href
        (Soup.find_all "div" (Some "listing_container") page_three_containers).
Proof.
  apply (extract_links_in_document_order page_three_containers). reflexivity.
Defined.

(** X9: every entry that the extractor returns has a non-empty link and a
    name without whitespace at either end (trimming it again changes
    nothing), and there are at most as many entries as listing
    containers. *)
Theorem extract_links_entries soup businesses :
  extract_links_from_search soup = Ok businesses →
  Forall (λ b, listing_link b ≠ EmptyString ∧
               PyStr.strip (listing_name b) = listing_name b) businesses ∧
  length businesses ≤ length (Soup.find_all "div" (Some "listing_container") soup).
Proof.
  unfold extract_links_from_search.
  destruct (Soup.find_all "div" (Some "listing_container") soup) as [|c cs] eqn:Hall.
  - intros [= <-]. split; [constructor | reflexivity].
  - intros (new & -> & Hlinks & Hnames)%extract_listings_Ok. cbn [app].
    split.
    + apply Forall_forall. intros b Hb. split.
      * assert (Hin : listing_link b ∈ omap title_href (c :: cs)).
        { rewrite <- Hlinks. apply list_elem_of_fmap. eauto. }
        apply list_elem_of_omap in Hin as (c' & _ & Hhref).
        eapply title_href_nonempty, Hhref.
      * revert b Hb. apply Forall_forall, Hnames.
    + rewrite <- (length_fmap listing_link), Hlinks. apply omap_length_le.
Qed.

Lemma extract_links_entries_witness :
  Forall (λ b, listing_link b ≠ EmptyString ∧
               PyStr.strip (listing_name b) = listing_name b)
         [Listing "Acme" "/biz/1"; Listing "Bolt" "/biz/3"] ∧
  length [Listing "Acme" "/biz/1"; Listing "Bolt" "/biz/3"]
    ≤ length (Soup.find_all "div" (Some "listing_container") page_three_containers).
Proof.
  apply (extract_links_entries page_three_containers). reflexivity.
Defined.

(** ** The detail extractor, in general *)

Lemma scrape_soup_raises url soup e :
  scrape_soup url soup = Raise e ↔
  ∃ info o em,
    Soup.find "div" (Some contact_class) soup = Some info ∧
    website_link_element info = Some o ∧
    email_link_element info = Some em ∧
    ((o = None ∧ e = TypeError) ∨
     (∃ a, o = Some a ∧ Soup.lookup_attr "href" (Soup.attrs a) = None ∧
           e = KeyError "href") ∨
     (∃ a site, o = Some a ∧ Soup.lookup_attr "href" (Soup.attrs a) = Some site ∧
                Soup.lookup_attr "href" (Soup.attrs em) = None ∧ e = KeyError "href")).
Proof.
  unfold scrape_soup. fold contact_class. split.
  - destruct (Soup.find "div" (Some contact_class) soup) as [info|]; [|discriminate].
    destruct (website_link_element info) as [o|] eqn:Ho; [|discriminate].
    destruct (email_link_element info) as [em|] eqn:Hem; [|discriminate].
    intros He. exists info, o, em. repeat split; try assumption.
    destruct o as [a|]; cbn in He; [|left; split; congruence].
    right. unfold Soup.getitem in He.
    destruct (Soup.lookup_attr "href" (Soup.attrs a)) as [site|] eqn:Ha; cbn in He.
    + right. exists a, site.
      destruct (Soup.lookup_attr "href" (Soup.attrs em)); [discriminate|].
      cbn in He. repeat split; congruence.
    + left. exists a. repeat split; congruence.
  - intros (info & o & em & -> & -> & -> & Hcase).
    destruct Hcase as [[-> ->] | [(a & -> & Ha & ->) | (a & site & -> & Ha & Hem & ->)]];
      cbn; unfold Soup.getitem; rewrite ?Ha; cbn; rewrite ?Hem; reflexivity.
Qed.

(** X10: the detail extractor raises in exactly these cases: the page was
    fetched, has the contact-info container, a website anchor was looked up
    (by class, or a website icon exists) and an email anchor was found, and
    then either there is no tag after the website icon (TypeError), or the
    website anchor has no href, or the email anchor has no href (KeyError
    for href).  In every other case it returns a record. *)
Theorem scrape_raises_iff
    (web : nat → string → dict → option Soup.element) url hdrs w e :
  (scrape_business_page web url hdrs w).2 = Raise e ↔
  ∃ soup info o em,
    web (length (requests w)) url hdrs = Some soup ∧
    Soup.find "div" (Some contact_class) soup = Some info ∧
    website_link_element info = Some o ∧
    email_link_element info = Some em ∧
    ((o = None ∧ e = TypeError) ∨
     (∃ a, o = Some a ∧ Soup.lookup_attr "href" (Soup.attrs a) = None ∧
           e = KeyError "href") ∨
     (∃ a site, o = Some a ∧ Soup.lookup_attr "href" (Soup.attrs a) = Some site ∧
                Soup.lookup_attr "href" (Soup.attrs em) = None ∧ e = KeyError "href")).
Proof.
  rewrite scrape_business_page_unfold. cbn [snd].
  destruct (web (length (requests w)) url hdrs) as [soup|].
  - rewrite scrape_soup_raises. split.
    + intros (info & o & em & H). exists soup, info, o, em. split; [reflexivity | exact H].
    + intros (soup' & info & o & em & [= <-] & H). exists info, o, em. exact H.
  - split; [discriminate|]. intros (soup & info & o & em & Hweb & _). discriminate.
Qed.

(** X11: when the website anchor and the email anchor are both found and
    both have an href, the extractor returns the record with the input URL,
    the href of the website anchor as it is, and the href of the email
    anchor without "mailto:" and trimmed. *)
Theorem scrape_commits_both
    (web : nat → string → dict → option Soup.element) url hdrs w soup info a em site href :
  web (length (requests w)) url hdrs = Some soup →
  Soup.find "div" (Some contact_class) soup = Some info →
  website_link_element info = Some (Some a) →
  email_link_element info = Some em →
  Soup.lookup_attr "href" (Soup.attrs a) = Some site →
  Soup.lookup_attr "href" (Soup.attrs em) = Some href →
  (scrape_business_page web url hdrs w).2
    = Ok (Details url (PyStr.strip (PyStr.replace "mailto:" EmptyString href)) site).
Proof.
  intros Hweb Hinfo Ha Hem Hsite Hhref.
  rewrite scrape_business_page_unfold, Hweb. cbn [snd].
  unfold scrape_soup. fold contact_class. rewrite Hinfo, Ha, Hem.
  cbn. unfold Soup.getitem. rewrite Hsite. cbn. rewrite Hhref. reflexivity.
Qed.

Lemma scrape_commits_both_witness :
  (scrape_business_page (always (Some page_plain)) acme_url headers fresh).2
    = Ok (Details acme_url
            (PyStr.strip (PyStr.replace "mailto:" EmptyString "mailto: info@acme.ie "))
            acme_site).
Proof.
  apply (scrape_commits_both (always (Some page_plain)) acme_url headers fresh
           page_plain (contact_info block_plain)
           (Soup.Element "a" [] [("href", acme_site)] []
              [Soup.Tag "span" ["icon_email"] [] [];
               Soup.Tag "a" [] [("href", "mailto: info@acme.ie ")] []])
           (Soup.Element "a" [] [("href", "mailto: info@acme.ie ")] [] []));
    reflexivity.
Defined.

(** X12: whatever the site answers, a call of the detail extractor issues
    one request, for its URL, sleeps no time and touches no file; and a
    record that it returns has the URL as its link. *)
Theorem scrape_effect
    (web : nat → string → dict → option Soup.element) url hdrs w :
  (scrape_business_page web url hdrs w).1
    = World (requests w ++ [url]) (slept w) (files w) (locked w) ∧
  ∀ d, (scrape_business_page web url hdrs w).2 = Ok d → details_link d = url.
Proof.
  rewrite scrape_business_page_unfold. cbn [fst snd]. split; [reflexivity|].
  intros d. destruct (web _ _ _) as [soup|].
  - apply scrape_soup_link.
  - intros [= <-]. reflexivity.
Qed.

(** ** Phase 1, in general *)

Section Phase1.
Variable web : nat → string → dict → option Soup.element.


Lemma main_phase1_prefix n : ∀ first set w,
  ∃ j, j ≤ n ∧
    requests (main_phase1 web (seq first n) set w).1
      = requests w ++ (current_url <$> seq first j).
Proof.
  induction n as [|n IH]; intros first set w.
  - exists 0. cbn. rewrite app_nil_r. auto.
  - cbn [seq]. rewrite main_phase1_cons. cbn zeta.
    assert (Hone : ∃ j, j ≤ S n ∧
              requests w ++ [current_url first]
                = requests w ++ (current_url <$> seq first j))
      by (exists 1; split; [lia | reflexivity]).
    destruct (web _ _ _) as [soup|]; [|exact Hone].
    destruct (extract_links_from_search soup) as [[|l ls]|]; try exact Hone.
    edestruct (IH (S first)) as (j & Hj & Hreq). exists (S j). split; [lia|].
    rewrite Hreq. cbn [requests seq fmap list_fmap]. rewrite <- app_assoc. reflexivity.
Qed.
End Phase1.



(** X14: whatever the site answers, and also when the extractor raises,
    the requests of phase 1 are those for pages 1 to [j], in this order, for
    some [j] up to the ceiling, and no URL is requested twice. *)
Theorem phase1_requests_distinct
    (web : nat → string → dict → option Soup.element) max_pages set w :
  ∃ j, j ≤ max_pages ∧
    requests (main_phase1 web (seq 1 max_pages) set w).1
      = requests w ++ (current_url <$> seq 1 j) ∧
    NoDup (current_url <$> seq 1 j).
Proof.
  destruct (main_phase1_prefix web max_pages 1 set w) as (j & Hj & Hreq).
  exists j. split; [exact Hj|]. split; [exact Hreq|].
  apply NoDup_fmap_2_strong; [|apply NoDup_seq].
  intros p q Hp%elem_of_seq Hq%elem_of_seq. apply current_url_inj; lia.
Qed.

(** ** Phase 2 and [main], in general *)

Section Driver.
Variable web : nat → string → dict → option Soup.element.
Variable json_dump : list final_data → string.
Variable set_iter : gset listing → list listing.

Lemma main_phase2_order links : ∀ all_scraped_data w w' out,
  main_phase2 web links all_scraped_data w = (w', Ok out) →
  ∃ new,
    out = all_scraped_data ++ new ∧
    (λ r, (name r, link r)) <$> new
      `sublist_of` (λ b, (listing_name b, full_url b)) <$> links.
Proof.
  induction links as [|b rest IH]; intros acc w w' out Hrun.
  - cbn in Hrun. injection Hrun as _ <-. exists []. rewrite app_nil_r.
    split; [reflexivity | constructor].
  - rewrite main_phase2_cons, scrape_business_page_unfold in Hrun.
    destruct (match web _ _ _ with Some _ => _ | None => _ end) as [d|e] eqn:Hd;
      [|discriminate].
    assert (Hlink : details_link d = full_url b).
    { destruct (web _ _ _); [eapply scrape_soup_link; eauto | injection Hd as <-; reflexivity]. }
    apply IH in Hrun as (new & -> & Hsub). cbn [fmap list_fmap].
    case_decide.
    + eexists. rewrite <- app_assoc. split; [reflexivity|].
      cbn [app fmap list_fmap name link]. rewrite Hlink.
      apply sublist_skip, Hsub.
    + exists new. split; [reflexivity|]. apply sublist_cons, Hsub.
Qed.

(** The run of [main], phase by phase. *)
Lemma main_upto_unfold max_pages w :
  main_upto web json_dump set_iter max_pages w =
  match main_phase1 web (seq 1 max_pages) ∅ w with
  | (w1, Ok all_business_links_set) =>
      match set_iter all_business_links_set with
      | [] => (w1, Ok tt)
      | all_business_links =>
          match main_phase2 web all_business_links [] w1 with
          | (w2, Ok all_scraped_data) => main_phase3 json_dump all_scraped_data w2
          | (w2, Raise e) => (w2, Raise e)
          end
      end
  | (w1, Raise e) => (w1, Raise e)
  end.
Proof.
  unfold main_upto, mbind, M_bind.
  destruct (main_phase1 web (seq 1 max_pages) ∅ w) as [w1 [set|e]]; [|reflexivity].
  destruct (set_iter set) as [|b links]; reflexivity.
Qed.

Lemma main_phase3_frame all_scraped_data w :
  (main_phase3 json_dump all_scraped_data w).2 = Ok tt ∧
  locked (main_phase3 json_dump all_scraped_data w).1 = locked w ∧
  requests (main_phase3 json_dump all_scraped_data w).1 = requests w ∧
  ∀ other, other ≠ json_file_name →
    files (main_phase3 json_dump all_scraped_data w).1 !! other = files w !! other.
Proof.
  unfold main_phase3, write_file. destruct all_scraped_data as [|r out]; [auto|].
  case_decide; [auto|]. cbn. repeat split.
  intros other Hother. rewrite lookup_insert_ne by congruence. reflexivity.
Qed.

Lemma main_upto_frame max_pages w :
  locked (main_upto web json_dump set_iter max_pages w).1 = locked w ∧
  (∀ other, other ≠ json_file_name →
     files (main_upto web json_dump set_iter max_pages w).1 !! other = files w !! other) ∧
  (∀ e, (main_upto web json_dump set_iter max_pages w).2 = Raise e →
     files (main_upto web json_dump set_iter max_pages w).1 = files w).
Proof.
  rewrite main_upto_unfold.
  pose proof (main_phase1_files web (seq 1 max_pages) ∅ w) as [Hf1 Hl1].
  destruct (main_phase1 web (seq 1 max_pages) ∅ w) as [w1 [set|e1]];
    cbn [fst] in Hf1, Hl1; [|cbn; rewrite Hf1; auto].
  destruct (set_iter set) as [|b links]; [cbn; rewrite Hf1; repeat split; auto; discriminate|].
  pose proof (main_phase2_files web (b :: links) [] w1) as [Hf2 Hl2].
  destruct (main_phase2 web (b :: links) [] w1) as [w2 [out|e2]];
    cbn [fst] in Hf2, Hl2; [|cbn; rewrite Hf2, Hf1, Hl2; auto].
  destruct (main_phase3_frame out w2) as (Hok & Hl3 & _ & Hf3).
  rewrite Hl3, Hl2, Hl1. split; [reflexivity|]. split.
  - intros other Hother. rewrite (Hf3 other Hother), Hf2, Hf1. reflexivity.
  - intros e He. rewrite Hok in He. discriminate.
Qed.
End Driver.

(** X15: the output of phase 2 keeps the order of the links: the names and
    links of its records are, in this order, those of some of the links
    (name and absolute URL), so there are at most as many records as
    links. *)
Theorem phase2_keeps_order
    (web : nat → string → dict → option Soup.element) links w w' out :
  main_phase2 web links [] w = (w', Ok out) →
  (λ r, (name r, link r)) <$> out
    `sublist_of` (λ b, (listing_name b, full_url b)) <$> links.
Proof.
  intros (new & -> & Hsub)%main_phase2_order. exact Hsub.
Qed.

Lemma phase2_keeps_order_witness :
  (λ r, (name r, link r)) <$> [FinalData "Acme" (full_url acme) "info@acme.ie" acme_site]
    `sublist_of` (λ b, (listing_name b, full_url b)) <$> [bolt_3; acme; bolt_2].
Proof.
  apply (phase2_keeps_order web_details [bolt_3; acme; bolt_2] fresh
           (World [full_url bolt_3; full_url acme; full_url bolt_2] 6 ∅ ∅)).
  reflexivity.
Defined.

(** X16: [main] changes no file other than the JSON file, and when it
    raises (an exception of the extractors goes through it) it has written
    nothing: the records collected so far are lost. *)
Theorem main_writes_only_json
    (web : nat → string → dict → option Soup.element)
    (json_dump : list final_data → string)
    (set_iter : gset listing → list listing) max_pages w :
  (∀ other, other ≠ json_file_name →
     files (main_upto web json_dump set_iter max_pages w).1 !! other = files w !! other) ∧
  (∀ e, (main_upto web json_dump set_iter max_pages w).2 = Raise e →
     files (main_upto web json_dump set_iter max_pages w).1 = files w).
Proof.
  destruct (main_upto_frame web json_dump set_iter max_pages w) as (_ & Hother & Hraise).
  split; assumption.
Qed.

Lemma main_writes_only_json_witness :
  (main_upto web_crash (λ _, "[...]") elements 3 fresh).2 = Raise TypeError ∧
  files (main_upto web_crash (λ _, "[...]") elements 3 fresh).1 = files fresh.
Proof.
  assert (Hraise : (main_upto web_crash (λ _, "[...]") elements 3 fresh).2 = Raise TypeError)
    by (vm_compute; reflexivity).
  split; [exact Hraise|].
  exact (proj2 (main_writes_only_json web_crash (λ _, "[...]") elements 3 fresh) _ Hraise).
Defined.

(** X17: when the first search page cannot be fetched or gives no entry,
    [main] stops after this one request, for the bare base URL: it requests
    no business page, sleeps no time, writes no file and returns. *)
Theorem main_without_links
    (web : nat → string → dict → option Soup.element)
    (json_dump : list final_data → string)
    (set_iter : gset listing → list listing) max_pages w :
  1 ≤ max_pages →
  (∀ s, set_iter s ≡ₚ elements s) →
  ends_pagination (page_answer web w 1) →
  main_upto web json_dump set_iter max_pages w =
    (World (requests w ++ [base_url_pattern]) (slept w) (files w) (locked w), Ok tt).
Proof.
  intros Hmax Hperm Hend. rewrite main_upto_unfold.
  destruct max_pages as [|n]; [lia|]. cbn [seq]. rewrite main_phase1_cons. cbn zeta.
  unfold page_answer in Hend. cbn [Nat.sub] in Hend. rewrite Nat.add_0_r in Hend.
  assert (Hnil : set_iter ∅ = []).
  { apply Permutation_nil_r. rewrite Hperm, elements_empty. reflexivity. }
  destruct Hend as [-> | (soup & -> & ->)]; rewrite Hnil; reflexivity.
Qed.

Lemma main_without_links_witness :
  main_upto (always None) (λ _, "[...]") elements 95 fresh =
    (World ([] ++ [base_url_pattern]) 0 ∅ ∅, Ok tt).
Proof.
  apply (main_without_links (always None) (λ _, "[...]") elements 95 fresh).
  - lia.
  - intros s. reflexivity.
  - left. reflexivity.
Defined.

(** X18: when both phases return, the output of phase 2 is not empty and
    the JSON file can be opened, [main] replaces the contents of the JSON
    file by the dump of exactly this output and returns; nothing else
    changes after phase 2. *)
Theorem main_writes_output
    (web : nat → string → dict → option Soup.element)
    (json_dump : list final_data → string)
    (set_iter : gset listing → list listing) max_pages w w1 w2 set out :
  main_phase1 web (seq 1 max_pages) ∅ w = (w1, Ok set) →
  main_phase2 web (set_iter set) [] w1 = (w2, Ok out) →
  out ≠ [] →
  json_file_name ∉ locked w →
  main_upto web json_dump set_iter max_pages w =
    (World (requests w2) (slept w2)
           (<[json_file_name := json_dump out]> (files w)) (locked w), Ok tt).
Proof.
  intros H1 H2 Hout Hfree. rewrite main_upto_unfold, H1.
  pose proof (main_phase1_files web (seq 1 max_pages) ∅ w) as [Hf1 Hl1].
  pose proof (main_phase2_files web (set_iter set) [] w1) as [Hf2 Hl2].
  rewrite H1 in Hf1, Hl1. rewrite H2 in Hf2, Hl2. cbn [fst] in *.
  destruct (set_iter set) as [|b links] eqn:Hlinks.
  - cbn in H2. injection H2 as _ <-. contradiction.
  - rewrite H2. unfold main_phase3, write_file.
    destruct out as [|r out]; [contradiction|].
    rewrite decide_False by (rewrite Hl2, Hl1; exact Hfree).
    rewrite Hf2, Hf1, Hl2, Hl1. reflexivity.
Qed.

Lemma main_writes_output_witness :
  main_upto web_one_listing (λ _, "[...]") elements 3 fresh =
    (World [base_url_pattern; current_url 2; "https://www.goldenpages.ie/biz/123"] 4
           (<[json_file_name := "[...]"]> ∅) ∅, Ok tt).
Proof.
  apply (main_writes_output web_one_listing (λ _, "[...]") elements 3 fresh
           (World [base_url_pattern; current_url 2] 2 ∅ ∅)
           (World [base_url_pattern; current_url 2; "https://www.goldenpages.ie/biz/123"] 4 ∅ ∅)
           {[Listing "Plumbing Co" "/biz/123"]}
           [FinalData "Plumbing Co" "https://www.goldenpages.ie/biz/123"
                      "info@acme.ie" acme_site]).
  - vm_compute. reflexivity.
  - vm_compute. reflexivity.
  - discriminate.
  - apply not_elem_of_empty.
Defined.

(** ** [save_to_csv], in general *)

Lemma append_assoc s t u : (s +:+ t) +:+ u = s +:+ (t +:+ u).
Proof.
  induction s as [|c s IH]; [reflexivity|]. rewrite !append_String, IH. reflexivity.
Qed.

Lemma append_empty_r s : s +:+ EmptyString = s.
Proof. induction s as [|c s IH]; [reflexivity|]. rewrite append_String, IH. reflexivity. Qed.

Lemma existsb_eqb k (l : list string) : existsb (String.eqb k) l = true ↔ k ∈ l.
Proof.
  induction l as [|x l IH]; cbn.
  - split; [discriminate | intros H; inversion H].
  - rewrite orb_true_iff, IH, String.eqb_eq, elem_of_cons. reflexivity.
Qed.

Lemma dict_to_list_Some fieldnames rowdict :
  row_ok fieldnames rowdict →
  dict_to_list fieldnames rowdict = Some (row_values fieldnames rowdict).
Proof.
  intros Hok. unfold dict_to_list.
  replace (forallb _ _) with true; [reflexivity|].
  symmetry. apply forallb_forall. intros k Hk%list_elem_of_In.
  apply existsb_eqb, Hok, Hk.
Qed.

Lemma dict_to_list_None fieldnames rowdict :
  ¬ row_ok fieldnames rowdict → dict_to_list fieldnames rowdict = None.
Proof.
  intros Hbad. unfold dict_to_list.
  destruct (forallb _ _) eqn:Hall; [|reflexivity].
  exfalso. apply Hbad. intros k Hk%list_elem_of_In.
  rewrite forallb_forall in Hall. apply existsb_eqb, Hall, Hk.
Qed.

Section CsvRows.
Variable csv_row : list string → string.

Lemma writerows_app fieldnames before rest :
  Forall (row_ok fieldnames) before →
  writerows csv_row fieldnames (before ++ rest) =
    (rows_text csv_row fieldnames before +:+ (writerows csv_row fieldnames rest).1,
     (writerows csv_row fieldnames rest).2).
Proof.
  induction 1 as [|rowdict before Hrow Hbefore IH]; cbn [app writerows rows_text foldr].
  - rewrite append_empty. destruct (writerows _ _ rest); reflexivity.
  - rewrite (dict_to_list_Some _ _ Hrow), IH. cbn. rewrite append_assoc. reflexivity.
Qed.

Lemma writerows_all fieldnames rowdicts :
  Forall (row_ok fieldnames) rowdicts →
  writerows csv_row fieldnames rowdicts = (rows_text csv_row fieldnames rowdicts, true).
Proof.
  intros Hall. rewrite <- (app_nil_r rowdicts) at 1.
  rewrite (writerows_app _ _ [] Hall). cbn. rewrite append_empty_r. reflexivity.
Qed.

Lemma rows_text_app fieldnames l1 l2 :
  rows_text csv_row fieldnames (l1 ++ l2)
    = rows_text csv_row fieldnames l1 +:+ rows_text csv_row fieldnames l2.
Proof.
  unfold rows_text. induction l1 as [|r l1 IH]; [reflexivity|].
  cbn [app foldr]. rewrite IH, append_assoc. reflexivity.
Qed.

(** The call on a path that can be opened, with rows that are all
    accepted. *)
Lemma save_to_csv_all first rest filename mode header w :
  filename ∉ locked w →
  Forall (row_ok first.*1) rest →
  save_to_csv csv_row (first :: rest) filename mode header w =
    (World (requests w) (slept w)
       (<[filename := old_text mode filename w
                      +:+ (if header then csv_row first.*1 else EmptyString)
                      +:+ rows_text csv_row first.*1 (first :: rest)]> (files w))
       (locked w), Ok tt).
Proof.
  intros Hfree Hrest. unfold save_to_csv, write_file.
  rewrite decide_False by exact Hfree.
  rewrite writerows_all; [reflexivity|].
  constructor; [intros k Hk; exact Hk | exact Hrest].
Qed.
End CsvRows.

(** X19: on a path that can be opened, with rows whose keys are all among
    the keys of the first row, [save_to_csv] leaves in the file what mode
    'a' found there (nothing in mode 'w'), then the header row of the keys
    of the first row if asked for, then one row per record with its values
    in the order of these keys and an empty field for a key that the record
    lacks; nothing else changes. *)
Theorem save_to_csv_content
    (csv_row : list string → string) first rest filename mode header w :
  filename ∉ locked w →
  Forall (row_ok first.*1) rest →
  save_to_csv csv_row (first :: rest) filename mode header w =
    (World (requests w) (slept w)
       (<[filename := old_text mode filename w
                      +:+ (if header then csv_row first.*1 else EmptyString)
                      +:+ rows_text csv_row first.*1 (first :: rest)]> (files w))
       (locked w), Ok tt).
Proof.
  intros Hfree Hrest.
  pose proof (save_to_csv_all csv_row first rest filename mode header w Hfree Hrest) as H.
  rewrite H. reflexivity.
Qed.

Lemma save_to_csv_content_witness :
  save_to_csv semicolons [row_acme; row_no_name] "out.csv" mode_w true fresh =
    (World [] 0
       (<[ "out.csv" := old_text mode_w "out.csv" fresh
                        +:+ semicolons ["name"; "link"]
                        +:+ rows_text semicolons ["name"; "link"] [row_acme; row_no_name] ]> ∅)
       ∅, Ok tt).
Proof.
  apply (save_to_csv_content semicolons row_acme [row_no_name] "out.csv" mode_w true fresh).
  - apply not_elem_of_empty.
  - constructor; [|constructor]. intros key Hkey. cbn in Hkey.
    apply list_elem_of_singleton in Hkey as ->. right. left.
Defined.

(** X20: writing records in mode 'w' and then appending further records
    with the same keys in mode 'a' without a header leaves the world as
    writing all the records in one call does. *)
Theorem save_to_csv_append
    (csv_row : list string → string) first rest more filename header w :
  filename ∉ locked w →
  Forall (row_ok first.*1) rest →
  Forall (row_ok first.*1) more →
  (∀ first', head more = Some first' → first'.*1 = first.*1) →
  save_to_csv csv_row more filename mode_a false
    (save_to_csv csv_row (first :: rest) filename mode_w header w).1
  = save_to_csv csv_row (first :: rest ++ more) filename mode_w header w.
Proof.
  intros Hfree Hrest Hmore Hkeys.
  rewrite (save_to_csv_all csv_row first rest _ _ _ _ Hfree Hrest).
  rewrite (save_to_csv_all csv_row first (rest ++ more) _ _ _ _ Hfree)
    by (apply Forall_app; auto).
  cbn [fst]. destruct more as [|first' more].
  - rewrite app_nil_r. reflexivity.
  - rewrite <- (Hkeys first' eq_refl) in *.
    apply Forall_cons in Hmore as [_ Hmore].
    rewrite (save_to_csv_all csv_row first' more) by assumption.
    cbn [requests slept files locked old_text]. rewrite insert_insert_eq, lookup_insert_eq.
    cbn [default from_option]. unfold id. do 3 f_equal.
    rewrite !append_empty, append_assoc, (app_comm_cons rest), rows_text_app.
    reflexivity.
Qed.

Lemma save_to_csv_append_witness :
  save_to_csv semicolons [row_acme; row_no_name] "out.csv" mode_a false
    (save_to_csv semicolons [row_acme] "out.csv" mode_w true fresh).1
  = save_to_csv semicolons (row_acme :: [] ++ [row_acme; row_no_name]) "out.csv" mode_w true fresh.
Proof.
  apply (save_to_csv_append semicolons row_acme [] [row_acme; row_no_name] "out.csv" true fresh).
  - apply not_elem_of_empty.
  - constructor.
  - constructor; [|constructor; [|constructor]].
    + intros key Hkey. exact Hkey.
    + intros key Hkey. cbn in Hkey. apply list_elem_of_singleton in Hkey as ->. right. left.
  - intros first' [= <-]. reflexivity.
Defined.

(** X21: a record with a key that the first record lacks ends the writing:
    the header and the records before it are in the file, this record and
    those after it are not, and the call still returns (the ValueError is
    caught). *)
Theorem save_to_csv_stops_at_extra_key
    (csv_row : list string → string) first before bad after filename mode header w :
  filename ∉ locked w →
  Forall (row_ok first.*1) before →
  ¬ row_ok first.*1 bad →
  save_to_csv csv_row (first :: before ++ bad :: after) filename mode header w =
    (World (requests w) (slept w)
       (<[filename := old_text mode filename w
                      +:+ (if header then csv_row first.*1 else EmptyString)
                      +:+ rows_text csv_row first.*1 (first :: before)]> (files w))
       (locked w), Ok tt).
Proof.
  intros Hfree Hbefore Hbad. unfold save_to_csv, write_file.
  rewrite decide_False by exact Hfree.
  rewrite (app_comm_cons before), writerows_app
    by (constructor; [intros k Hk; exact Hk | exact Hbefore]).
  cbn [writerows]. rewrite (dict_to_list_None _ _ Hbad). cbn [fst].
  rewrite append_empty_r. reflexivity.
Qed.

Lemma save_to_csv_stops_at_extra_key_witness :
  save_to_csv semicolons (row_acme :: [row_no_name] ++ row_with_phone :: [row_acme])
    "out.csv" mode_w true fresh =
    (World [] 0
       (<[ "out.csv" := old_text mode_w "out.csv" fresh
                        +:+ semicolons ["name"; "link"]
                        +:+ rows_text semicolons ["name"; "link"] [row_acme; row_no_name] ]> ∅)
       ∅, Ok tt).
Proof.
  apply (save_to_csv_stops_at_extra_key semicolons row_acme [row_no_name] row_with_phone
           [row_acme] "out.csv" mode_w true fresh).
  - apply not_elem_of_empty.
  - constructor; [|constructor]. intros key Hkey. cbn in Hkey.
    apply list_elem_of_singleton in Hkey as ->. right. left.
  - intros Hok. specialize (Hok "phone"). cbn in Hok.
    assert (Hin : "phone" ∈ ["name"; "link"]) by (apply Hok; right; left).
    apply elem_of_cons in Hin as [Hin | Hin]; [discriminate|].
    apply list_elem_of_singleton in Hin. discriminate.
Defined.

(** X22: an error of the output file is swallowed: whenever phase 1 and
    phase 2 return, [main] returns, also when the JSON file cannot be
    opened, and in that case it leaves all files as they were. *)
Theorem main_survives_locked_json
    (web : nat → string → dict → option Soup.element)
    (json_dump : list final_data → string)
    (set_iter : gset listing → list listing) max_pages w w1 w2 set out :
  main_phase1 web (seq 1 max_pages) ∅ w = (w1, Ok set) →
  main_phase2 web (set_iter set) [] w1 = (w2, Ok out) →
  (main_upto web json_dump set_iter max_pages w).2 = Ok tt ∧
  (json_file_name ∈ locked w →
   main_upto web json_dump set_iter max_pages w = (w2, Ok tt) ∧ files w2 = files w).
Proof.
  intros H1 H2. rewrite main_upto_unfold, H1.
  pose proof (main_phase1_files web (seq 1 max_pages) ∅ w) as [Hf1 Hl1].
  pose proof (main_phase2_files web (set_iter set) [] w1) as [Hf2 Hl2].
  rewrite H1 in Hf1, Hl1. rewrite H2 in Hf2, Hl2. cbn [fst] in *.
  destruct (set_iter set) as [|b links] eqn:Hlinks.
  - cbn in H2. injection H2 as <- <-. split; [reflexivity|]. auto.
  - rewrite H2. unfold main_phase3, write_file.
    destruct out as [|r out]; [split; [reflexivity|]; intros _; split; congruence|].
    case_decide as Hlocked.
    + split; [reflexivity|]. intros _. split; congruence.
    + split; [reflexivity|]. intros Hin. exfalso. apply Hlocked.
      rewrite Hl2, Hl1. exact Hin.
Qed.

Lemma main_survives_locked_json_witness :
  (main_upto web_one_listing (λ _, "[...]") elements 3
     (World [] 0 ∅ {[json_file_name]})).2 = Ok tt.
Proof.
  apply (main_survives_locked_json web_one_listing (λ _, "[...]") elements 3
           (World [] 0 ∅ {[json_file_name]})
           (World [base_url_pattern; current_url 2] 2 ∅ {[json_file_name]})
           (World [base_url_pattern; current_url 2; "https://www.goldenpages.ie/biz/123"] 4
                  ∅ {[json_file_name]})
           {[Listing "Plumbing Co" "/biz/123"]}
           [FinalData "Plumbing Co" "https://www.goldenpages.ie/biz/123"
                      "info@acme.ie" acme_site]).
  - vm_compute. reflexivity.
  - vm_compute. reflexivity.
Defined.
